(** * IndyAudio: playback-position bookkeeping of [app.py]

    A shallow embedding of the audio player's state and of the operations
    that read and write it: [format_time], [SeekSlider.mousePressEvent],
    [get_duration_with_ffprobe], [extract_metadata], [load_file],
    [start_ffplay], [kill_ffplay], [play_pause_toggle], [scrub],
    [update_slider], [update_preview_time] and [main].

    Modelling conventions.
    - Python [float] values (timestamps, durations, ratios) are exact
      rationals [Q]; IEEE rounding, NaN and the infinities are outside the
      model.  Equalities between times are therefore stated with [==].  A
      float literal stands for the rational its double denotes
      ([length_threshold] for [0.0001]).
    - What the player does to its child processes (SIGTERM and wait,
      [Popen]) is recorded, call by call, in the field [os_calls] of the
      state.
    - Python [int] values are [Z].
    - What the program obtains from outside (the wall clock, [poll()] on the
      child process, whether [Popen] succeeds, what mutagen, ffprobe and Qt
      answer for a path) enters the operations as explicit arguments or
      through the [world] record.
    - A Python exception is a [Raises]/[Raised] result. *)

From Stdlib Require Import ZArith QArith Qround Qminmax Lqa Lia Bool.
From Stdlib Require Import String Ascii List DecimalString DecimalPos DecimalN.
Import ListNotations.

Local Open Scope Z_scope.

(** ** Python numeric builtins on exact rationals *)

Module Py.

Definition Qltb (x y : Q) : bool := negb (Qle_bool y x).

(** [max(a, b)]: the first argument is kept unless the second is strictly
    greater. *)
Definition max (a b : Q) : Q := if Qltb a b then b else a.

(** [min(a, b)]: the first argument is kept unless the second is strictly
    smaller. *)
Definition min (a b : Q) : Q := if Qltb b a then b else a.

(** [int(x)] on a float: truncation toward zero. *)
Definition int (x : Q) : Z := Z.quot (Qnum x) (Zpos (Qden x)).

(** [round(x)] with one argument: nearest integer, ties to even. *)
Definition round (x : Q) : Z :=
  let f := Qfloor x in
  let r := (x - inject_Z f)%Q in
  if Qltb r (1 # 2) then f
  else if Qltb (1 # 2) r then f + 1
  else if Z.even f then f else f + 1.

(** Truthiness of a number: [if x:] holds when [x] is not zero. *)
Definition truthy (x : Q) : bool := negb (Qeq_bool x 0).

(** [divmod(n, d)] on integers: floor division and its remainder. *)
Definition divmod (n d : Z) : Z * Z := (n / d, n mod d).

(** [s.zfill]-style left padding with ['0'] up to [width] characters. *)
Definition zero_fill (width : nat) (s : string) : string :=
  (String.concat "" (repeat "0" (width - String.length s)) ++ s)%string.

(** [str(n)] for a non-negative integer. *)
Definition str_nat (n : Z) : string :=
  NilZero.string_of_uint (N.to_uint (Z.to_N n)).

(** The format specification [:02] on an integer: sign-aware zero padding
    to a total width of at least two. *)
Definition format_02 (n : Z) : string :=
  if n <? 0 then ("-" ++ zero_fill 1 (str_nat (- n)))%string
  else zero_fill 2 (str_nat n).

(** [os.path.basename]: the text after the last ['/']. *)
Definition has_slash (p : string) : bool :=
  existsb (Ascii.eqb "/"%char) (list_ascii_of_string p).

Fixpoint basename (p : string) : string :=
  match p with
  | EmptyString => EmptyString
  | String _ rest => if has_slash p then basename rest else p
  end.

End Py.

(** [AudioPlayer.format_time], a static method: [divmod(int(seconds), 60)]
    rendered with [f"{m:02}:{s:02}"]. *)
Definition format_time (seconds : Q) : string :=
  let (m, s) := Py.divmod (Py.int seconds) 60 in
  (Py.format_02 m ++ ":" ++ Py.format_02 s)%string.

(** ** Results of calls that may raise *)

Inductive outcome (A : Type) : Type :=
| Returns (a : A)
| Raises.
Arguments Returns {A} a.
Arguments Raises {A}.

(** [l[0]]: [IndexError] on the empty list. *)
Definition index0 {A : Type} (l : list A) : outcome A :=
  match l with
  | x :: _ => Returns x
  | [] => Raises
  end.

(** ** What the libraries answer *)

(** A text frame of an ID3 tag ([TIT2], [TPE1]). *)
Record frame : Type := { text : list string }.

(** An attached picture ([APIC] frame or FLAC picture block). *)
Record picture : Type := { data : string }.

(** The object [ID3(path)] returns.  It is dict-like: [if tags:] holds when
    it has at least one frame. *)
Record id3 : Type := {
  TIT2 : option frame;
  TPE1 : option frame;
  APIC : list picture;
  other_frames : bool
}.

Definition id3_truthy (t : id3) : bool :=
  match TIT2 t, TPE1 t, APIC t with
  | None, None, [] => other_frames t
  | _, _, _ => true
  end.

(** The object [MutagenFile(path)] returns when it recognises the file.
    It is dict-like too: [if audio:] holds when the file carries tags.
    [info] is [None] when the object has no [info] attribute, and
    [Some Raises] when [float(audio.info.length)] raises. *)
Record audio : Type := {
  audio_truthy : bool;
  is_FLAC : bool;
  info : option (outcome Q);
  vorbis_title : option (list string);
  vorbis_artist : option (list string);
  pictures : list picture
}.

Record world : Type := {
  (** [DEFAULT_ALBUM_ART.exists()] *)
  default_art_exists : bool;
  (** whether [QPixmap(path)] decodes the file (else the pixmap is null) *)
  pixmap_file_loads : string -> bool;
  (** [QPixmap.loadFromData] *)
  loadFromData : string -> bool;
  (** [mutagen.File(path)]: raises, returns [None], or returns an object *)
  MutagenFile : string -> outcome (option audio);
  (** [mutagen.id3.ID3(path)] *)
  ID3 : string -> outcome id3;
  (** [which("ffprobe") is not None] *)
  which_ffprobe : bool;
  (** [subprocess.check_output] of the ffprobe command for a path *)
  check_output : string -> outcome string;
  (** [float(out.strip())] *)
  float_of_output : string -> outcome Q
}.

(** ** Pixmaps *)

Inductive pixmap : Type :=
| QPixmap_file (path : string)
| QPixmap_fill (w h : Z)
| QPixmap_data (d : string)
| Rounded (src : pixmap) (size radius : Z).

Definition DEFAULT_ALBUM_ART : string := "/home/ray/IndyAudio/defualt_album.jpg".

Definition isNull (W : world) (p : pixmap) : bool :=
  match p with
  | QPixmap_file path => negb (pixmap_file_loads W path)
  | _ => false
  end.

Definition rounded_pixmap (W : world) (src : pixmap) (size radius : Z) : pixmap :=
  if isNull W src then QPixmap_fill size size
  else Rounded src size radius.

(** ** [get_duration_with_ffprobe] *)

(** [try: body  except Exception: return handler] *)
Definition try_except {A : Type} (body : outcome A) (handler : A) : outcome A :=
  match body with
  | Returns a => Returns a
  | Raises => Returns handler
  end.

Definition get_duration_with_ffprobe (W : world) (path : string) : outcome Q :=
  if negb (which_ffprobe W) then Returns 0%Q
  else
    try_except
      (match check_output W path with
       | Raises => Raises
       | Returns out =>
           match out with
           | EmptyString => Returns 0%Q
           | _ => float_of_output W out
           end
       end)
      0%Q.

(** ** The seek slider *)

Record slider_t : Type := {
  minimum : Z;
  maximum : Z;
  value : Z;
  enabled : bool
}.

(** [QAbstractSlider.setValue] bounds its argument to the slider's range. *)
Definition setValue (v : Z) (sl : slider_t) : slider_t :=
  {| minimum := minimum sl;
     maximum := maximum sl;
     value := Z.max (minimum sl) (Z.min (maximum sl) v);
     enabled := enabled sl |}.

Definition setEnabled (b : bool) (sl : slider_t) : slider_t :=
  {| minimum := minimum sl;
     maximum := maximum sl;
     value := value sl;
     enabled := b |}.

(** The value [SeekSlider.mousePressEvent] computes for a left-button click
    at abscissa [x] on a widget of width [w]: [x / w] raises
    [ZeroDivisionError] when [w] is zero. *)
Definition click_ratio (x : Q) (w : Z) : outcome Q :=
  if w =? 0 then Raises
  else Returns (Py.max 0 (Py.min 1 (x / inject_Z w)))%Q.

Definition click_value (sl : slider_t) (x : Q) (w : Z) : outcome Z :=
  match click_ratio x w with
  | Raises => Raises
  | Returns ratio =>
      Returns (Py.round (ratio * inject_Z (maximum sl - minimum sl))%Q
               + minimum sl)
  end.

(** ** The player *)

(** The [Popen] object: the child's pid and the arguments it was started
    with ([-ss start_sec file]). *)
Record popen : Type := {
  pid : Z;
  arg_ss : Q;
  arg_file : string
}.

(** Which face the play/pause button shows. *)
Inductive button_face : Type := ShowsPlay | ShowsPause.

(** What the player asks of the operating system about its children:
    [Terminate child] is the SIGTERM sent to a child ([os.killpg], or
    [terminate()] when that raises) followed by the wait for it;
    [Spawn start_sec file result] is the call of [Popen] on the ffplay
    command with [-ss start_sec file], which returned the child [result] or
    raised. *)
Inductive os_call : Type :=
| Terminate (child : Z)
| Spawn (start_sec : Q) (file : string) (result : option Z).

Module AudioPlayer.

Record t : Type := mk {
  current_file : option string;
  process : option popen;
  start_time : Q;
  pause_time : Q;
  length : Q;
  title_label : string;
  album_art_label : pixmap;
  play_pause_btn : button_face;
  slider : slider_t;
  time_label : string;
  slider_dragging : bool;
  (** the calls made so far, the most recent first *)
  os_calls : list os_call
}.

Definition album_size : Z := 360.
Definition album_radius : Z := 20.

Definition set_process (p : option popen) (s : t) : t :=
  mk (current_file s) p (start_time s) (pause_time s) (length s)
     (title_label s) (album_art_label s) (play_pause_btn s) (slider s)
     (time_label s) (slider_dragging s) (os_calls s).

Definition set_start_time (x : Q) (s : t) : t :=
  mk (current_file s) (process s) x (pause_time s) (length s)
     (title_label s) (album_art_label s) (play_pause_btn s) (slider s)
     (time_label s) (slider_dragging s) (os_calls s).

Definition set_pause_time (x : Q) (s : t) : t :=
  mk (current_file s) (process s) (start_time s) x (length s)
     (title_label s) (album_art_label s) (play_pause_btn s) (slider s)
     (time_label s) (slider_dragging s) (os_calls s).

Definition set_length (x : Q) (s : t) : t :=
  mk (current_file s) (process s) (start_time s) (pause_time s) x
     (title_label s) (album_art_label s) (play_pause_btn s) (slider s)
     (time_label s) (slider_dragging s) (os_calls s).

Definition set_current_file (f : option string) (s : t) : t :=
  mk f (process s) (start_time s) (pause_time s) (length s)
     (title_label s) (album_art_label s) (play_pause_btn s) (slider s)
     (time_label s) (slider_dragging s) (os_calls s).

Definition set_title_label (x : string) (s : t) : t :=
  mk (current_file s) (process s) (start_time s) (pause_time s) (length s)
     x (album_art_label s) (play_pause_btn s) (slider s)
     (time_label s) (slider_dragging s) (os_calls s).

Definition set_album_art_label (x : pixmap) (s : t) : t :=
  mk (current_file s) (process s) (start_time s) (pause_time s) (length s)
     (title_label s) x (play_pause_btn s) (slider s)
     (time_label s) (slider_dragging s) (os_calls s).

Definition set_slider (x : slider_t) (s : t) : t :=
  mk (current_file s) (process s) (start_time s) (pause_time s) (length s)
     (title_label s) (album_art_label s) (play_pause_btn s) x
     (time_label s) (slider_dragging s) (os_calls s).

Definition set_time_label (x : string) (s : t) : t :=
  mk (current_file s) (process s) (start_time s) (pause_time s) (length s)
     (title_label s) (album_art_label s) (play_pause_btn s) (slider s)
     x (slider_dragging s) (os_calls s).

Definition set_slider_dragging (b : bool) (s : t) : t :=
  mk (current_file s) (process s) (start_time s) (pause_time s) (length s)
     (title_label s) (album_art_label s) (play_pause_btn s) (slider s)
     (time_label s) b (os_calls s).

(** Record one more call to the operating system. *)
Definition log_call (c : os_call) (s : t) : t :=
  mk (current_file s) (process s) (start_time s) (pause_time s) (length s)
     (title_label s) (album_art_label s) (play_pause_btn s) (slider s)
     (time_label s) (slider_dragging s) (c :: os_calls s).

(** [update_play_pause_icon]: the button shows the pause face while playing
    and the play face otherwise (as a themed icon, or as text when the theme
    has none). *)
Definition update_play_pause_icon (playing : bool) (s : t) : t :=
  mk (current_file s) (process s) (start_time s) (pause_time s) (length s)
     (title_label s) (album_art_label s)
     (if playing then ShowsPause else ShowsPlay) (slider s)
     (time_label s) (slider_dragging s) (os_calls s).

(** [load_default_pixmap] *)
Definition load_default_pixmap (W : world) : pixmap :=
  let pix :=
    if default_art_exists W then QPixmap_file DEFAULT_ALBUM_ART
    else QPixmap_fill album_size album_size in
  rounded_pixmap W pix album_size album_radius.

(** The state [__init__] builds. *)
Definition init (W : world) : t :=
  {| current_file := None;
     process := None;
     start_time := 0;
     pause_time := 0;
     length := 0;
     title_label := "No track loaded";
     album_art_label := load_default_pixmap W;
     play_pause_btn := ShowsPlay;
     slider := {| minimum := 0; maximum := 1000; value := 0; enabled := false |};
     time_label := "00:00 / 00:00";
     slider_dragging := false;
     os_calls := [] |}.

(** [kill_ffplay]: when there is a handle its child is sent SIGTERM and
    waited for (every exception on the way is swallowed) and the handle is
    dropped; the button shows play. *)
Definition kill_ffplay (s : t) : t :=
  let s1 :=
    match process s with
    | Some pr => set_process None (log_call (Terminate (pid pr)) s)
    | None => s
    end in
  update_play_pause_icon false s1.

(** [start_ffplay(start_sec)].  [now] is what [time.time()] returns after
    the spawn; [spawn] is the pid of the new child, or [None] when [Popen]
    raises. *)
Definition start_ffplay (start_sec : Q) (now : Q) (spawn : option Z) (s : t) : t :=
  let s1 := kill_ffplay s in
  match current_file s1 with
  | None => s1
  | Some file =>
      let s1' := log_call (Spawn start_sec file spawn) s1 in
      match spawn with
      | Some child =>
          let s2 := set_process
                      (Some {| pid := child; arg_ss := start_sec; arg_file := file |})
                      s1' in
          let s3 := set_start_time (now - start_sec)%Q s2 in
          update_play_pause_icon true s3
      | None =>
          update_play_pause_icon false (set_process None s1')
      end
  end.

(** The calls on record once [kill_ffplay] has run. *)
Definition calls_after_kill (s : t) : list os_call :=
  match process s with
  | Some pr => Terminate (pid pr) :: os_calls s
  | None => os_calls s
  end.

(** [self.process and self.process.poll() is None]: [alive] is the answer
    of [poll() is None], asked only when there is a handle. *)
Definition is_playing (alive : bool) (s : t) : bool :=
  match process s with
  | Some _ => alive
  | None => false
  end.

(** [play_pause_toggle] *)
Definition play_pause_toggle (now : Q) (alive : bool) (spawn : option Z) (s : t) : t :=
  match current_file s with
  | None => s
  | Some _ =>
      if is_playing alive s then
        let s1 := set_pause_time (now - start_time s)%Q s in
        let s2 := set_pause_time (Py.max 0 (Py.min (pause_time s1) (length s1))) s1 in
        kill_ffplay s2
      else
        start_ffplay (pause_time s) now spawn s
  end.

(** [stop_internal] *)
Definition stop_internal (s : t) : t :=
  let s1 := kill_ffplay s in
  let s2 := set_start_time 0 s1 in
  let s3 := set_pause_time 0 s2 in
  let s4 := set_slider (setValue 0 (slider s3)) s3 in
  let s5 := set_time_label
              ("00:00 / " ++ format_time (if Py.truthy (length s4) then length s4 else 0))
              s4 in
  update_play_pause_icon false s5.

(** [slider_pressed] *)
Definition slider_pressed (s : t) : t := set_slider_dragging true s.

(** [update_preview_time(slider_val)] *)
Definition update_preview_time (slider_val : Z) (s : t) : t :=
  if Py.truthy (length s) && slider_dragging s then
    let pos_ratio := (inject_Z slider_val / 1000)%Q in
    let pos_seconds := (pos_ratio * length s)%Q in
    set_time_label (format_time pos_seconds ++ " / " ++ format_time (length s)) s
  else s.

(** [scrub] *)
Definition scrub (now : Q) (spawn : option Z) (s : t) : t :=
  let s0 := set_slider_dragging false s in
  match current_file s0 with
  | None => s0
  | Some _ =>
      if Qeq_bool (length s0) 0 then s0
      else
        let pos_ratio := (inject_Z (value (slider s0)) / 1000)%Q in
        let pos_seconds := (pos_ratio * length s0)%Q in
        let s1 := set_pause_time (Py.max 0 (Py.min pos_seconds (length s0))) s0 in
        start_ffplay (pause_time s1) now spawn s1
  end.

(** The local [elapsed] of [update_slider] once clamped to the length. *)
Definition elapsed (now : Q) (alive : bool) (s : t) : Q :=
  let e :=
    if is_playing alive s then Py.max 0 (now - start_time s)%Q
    else pause_time s in
  Py.min e (length s).

(** The argument [update_slider] passes to [slider.setValue]. *)
Definition slider_position (e : Q) (s : t) : Z :=
  if Py.Qltb 0 (length s) then Py.int (e / length s * 1000)%Q else 0.

(** [update_slider].  [alive] answers the first [poll()], [alive'] the
    second one (the child may exit in between). *)
Definition update_slider (now : Q) (alive alive' : bool) (s : t) : t :=
  match current_file s with
  | None => s
  | Some _ =>
      if Qeq_bool (length s) 0 || slider_dragging s then s
      else
        let e := elapsed now alive s in
        let s1 := set_slider (setValue (slider_position e s) (slider s)) s in
        let s2 := set_time_label (format_time e ++ " / " ++ format_time (length s1)) s1 in
        match process s2 with
        | Some _ =>
            if negb alive' then kill_ffplay (set_pause_time (length s2) s2)
            else s2
        | None => s2
        end
  end.

(** [closeEvent] *)
Definition closeEvent (s : t) : t := kill_ffplay s.

(** *** Metadata *)

(** The locals [title], [artist] and [pixmap] of [extract_metadata]. *)
Record locals : Type := {
  title : string;
  artist : string;
  pix : pixmap
}.

(** [tags.get(key).text[0] if tags.get(key) else default] *)
Definition frame_text (f : option frame) (default : string) : outcome string :=
  match f with
  | Some fr => index0 (text fr)
  | None => Returns default
  end.

(** [audio.get(key, [default])[0]] *)
Definition vorbis_first (v : option (list string)) (default : string) : outcome string :=
  match v with
  | Some l => index0 l
  | None => Returns default
  end.

(** [tmp = QPixmap(); if tmp.loadFromData(pics[0].data): pixmap = tmp],
    under [if pics:]. *)
Definition first_picture (W : world) (pics : list picture) (p : pixmap) : pixmap :=
  match pics with
  | [] => p
  | pic :: _ => if loadFromData W (data pic) then QPixmap_data (data pic) else p
  end.

(** The body of the inner [try] after [tags = ID3(path)] returned: the
    locals as the body leaves them, and whether it raised. *)
Definition id3_body (W : world) (tags : id3) (loc : locals) : locals * bool :=
  if id3_truthy tags then
    match frame_text (TIT2 tags) (title loc) with
    | Raises => (loc, true)
    | Returns ti =>
        let loc1 := {| title := ti; artist := artist loc; pix := pix loc |} in
        match frame_text (TPE1 tags) (artist loc1) with
        | Raises => (loc1, true)
        | Returns ar =>
            let loc2 := {| title := ti; artist := ar; pix := pix loc1 |} in
            ({| title := ti; artist := ar;
                pix := first_picture W (APIC tags) (pix loc2) |}, false)
        end
    end
  else (loc, false).

(** The inner [except Exception:] handler; an exception raised here is
    caught by the outer handler, which prints it and goes on with the locals
    assigned so far. *)
Definition flac_handler (W : world) (au : audio) (file_name : string) (loc : locals) : locals :=
  if is_FLAC au then
    match vorbis_first (vorbis_title au) file_name with
    | Raises => loc
    | Returns ti =>
        let loc1 := {| title := ti; artist := artist loc; pix := pix loc |} in
        match vorbis_first (vorbis_artist au) "" with
        | Raises => loc1
        | Returns ar =>
            {| title := ti; artist := ar;
               pix := first_picture W (pictures au) (pix loc1) |}
        end
    end
  else loc.

(** The locals when the two [try] blocks are left. *)
Definition read_tags (W : world) (path : string) (au : option audio) (loc : locals) : locals :=
  match au with
  | None => loc
  | Some a =>
      if audio_truthy a then
        match ID3 W path with
        | Raises => flac_handler W a (Py.basename path) loc
        | Returns tags =>
            let (loc1, raised) := id3_body W tags loc in
            if raised then flac_handler W a (Py.basename path) loc1 else loc1
        end
      else loc
  end.

(** A method either returns, leaving the player in a state, or an exception
    leaves it, with the player in the state reached so far. *)
Inductive result : Type :=
| Done (s : t)
| Raised (s : t).

(** The locals of [extract_metadata] before any tag is read: the file name
    as title, no artist, the default image (or a gray square). *)
Definition default_locals (W : world) (path : string) : locals :=
  {| title := Py.basename path;
     artist := "";
     pix := if default_art_exists W then QPixmap_file DEFAULT_ALBUM_ART
            else QPixmap_fill album_size album_size |}.

(** [extract_metadata(path)].  [MutagenFile(path)] is called before the
    [try] is entered. *)
Definition extract_metadata (W : world) (path : string) (s : t) : result :=
  match MutagenFile W path with
  | Raises => Raised s
  | Returns au =>
      let loc := read_tags W path au (default_locals W path) in
      let s1 :=
        set_title_label
          (match artist loc with
           | EmptyString => title loc
           | _ => title loc ++ " - " ++ artist loc
           end) s in
      Done (set_album_art_label
              (rounded_pixmap W (pix loc) album_size album_radius) s1)
  end.

(** *** Loading a file *)

(** The literal [0.0001] of [load_file]: the double it denotes, which is
    slightly above one ten-thousandth. *)
Definition length_threshold : Q :=
  7378697629483821 # 73786976294838206464.

(** [length] after the [try] of [load_file]. *)
Definition mutagen_length (au : option audio) : Q :=
  match au with
  | Some a =>
      if audio_truthy a then
        match info a with
        | Some (Returns x) => x
        | Some Raises => 0
        | None => 0
        end
      else 0
  | None => 0
  end.

(** [load_file(path)] *)
Definition load_file (W : world) (path : string) (now : Q) (spawn : option Z) (s : t) : result :=
  let s1 := stop_internal s in
  let s2 := set_current_file (Some path) s1 in
  let s3 := set_start_time 0 s2 in
  let s4 := set_pause_time 0 s3 in
  let s5 := set_slider (setEnabled false (slider s4)) s4 in
  match extract_metadata W path s5 with
  | Raised s6 => Raised s6
  | Done s6 =>
      match MutagenFile W path with
      | Raises => Raised s6
      | Returns au =>
          let length0 := mutagen_length au in
          match (if Qle_bool length0 length_threshold
                 then get_duration_with_ffprobe W path
                 else Returns length0) with
          | Raises => Raised s6
          | Returns length1 =>
              let s7 := set_length (if Py.Qltb 0 length1 then length1 else 0) s6 in
              let s8 := set_slider (setEnabled (Py.Qltb 0 (length s7)) (slider s7)) s7 in
              let s9 := start_ffplay (pause_time s8) now spawn s8 in
              Done (update_play_pause_icon true s9)
          end
      end
  end.

(** [open_file_dialog]: [path] is what the dialog returns, empty when the
    user cancels. *)
Definition open_file_dialog (W : world) (path : string) (now : Q) (spawn : option Z) (s : t) : result :=
  match path with
  | EmptyString => Done s
  | _ => load_file W path now spawn s
  end.

(** *** Clicking on the slider *)

(** [SeekSlider.mousePressEvent] for a left-button click, up to the call of
    the click callback, which is [scrub].  Qt's own handler, which runs
    next, is not part of the program. *)
Definition mousePressEvent (x : Q) (w : Z) (now : Q) (spawn : option Z) (s : t) : result :=
  match click_value (slider s) x w with
  | Raises => Raised s
  | Returns val =>
      Done (scrub now spawn (set_slider (setValue val (slider s)) s))
  end.

(** *** Reachable states *)

(** What can happen to the window. *)
Inductive event : Type :=
| Open (path : string) (now : Q) (spawn : option Z)
| Toggle (now : Q) (alive : bool) (spawn : option Z)
| SliderPressed
| SliderMoved (v : Z)
| SliderReleased (now : Q) (spawn : option Z)
| Click (x : Q) (w : Z) (now : Q) (spawn : option Z)
| Tick (now : Q) (alive alive' : bool)
| Close.

(** The slot each event runs.  While the user drags the handle Qt stores
    the new value, bounded to the range, before it emits [sliderMoved]. *)
Definition handle (W : world) (e : event) (s : t) : result :=
  match e with
  | Open path now spawn => open_file_dialog W path now spawn s
  | Toggle now alive spawn => Done (play_pause_toggle now alive spawn s)
  | SliderPressed => Done (slider_pressed s)
  | SliderMoved v =>
      let s1 := set_slider (setValue v (slider s)) s in
      Done (update_preview_time (value (slider s1)) s1)
  | SliderReleased now spawn => Done (scrub now spawn s)
  | Click x w now spawn => mousePressEvent x w now spawn s
  | Tick now alive alive' => Done (update_slider now alive alive' s)
  | Close => Done (closeEvent s)
  end.

Definition state_of (r : result) : t :=
  match r with
  | Done s => s
  | Raised s => s
  end.

(** The states of a run: the initial one, and the one each handled event
    leaves behind, whether its slot returned or raised. *)
Inductive reachable (W : world) : t -> Prop :=
| reachable_init : reachable W (init W)
| reachable_step : forall s e,
    reachable W s -> reachable W (state_of (handle W e s)).

(** The length is not negative and the pause offset is at most the length. *)
Definition within_length (s : t) : Prop :=
  (0 <= length s /\ pause_time s <= length s)%Q.

(** No tag of the file can be read: mutagen recognises nothing or finds no
    tag, or [ID3(path)] raises and the file is not a FLAC, or it is one and
    the lookup of its title raises too. *)
Definition tags_unreadable (W : world) (path : string) (au : option audio) : Prop :=
  match au with
  | None => True
  | Some a =>
      audio_truthy a = false
      \/ (ID3 W path = Raises
          /\ (is_FLAC a = false
              \/ vorbis_first (vorbis_title a) (Py.basename path) = Raises))
  end.

End AudioPlayer.

(** * The rendering of a time as the specification words it *)

Module Spec.

(** The character of a decimal digit. *)
Definition digit (d : Z) : ascii := ascii_of_nat (48 + Z.to_nat d).

(** A number below one hundred on exactly two digits. *)
Definition two_digits (n : Z) : string :=
  String (digit (n / 10)) (String (digit (n mod 10)) EmptyString).

(** The decimal writing of a number, with a leading zero when it has a
    single digit. *)
Definition at_least_two_digits (n : Z) : string :=
  let d := Py.str_nat n in
  if (String.length d <? 2)%nat then String "0" d else d.

(** Minutes, a colon, seconds: the floor of the time split by sixty. *)
Definition format_time (t : Q) : string :=
  (at_least_two_digits (Qfloor t / 60) ++ ":" ++ two_digits (Qfloor t mod 60))%string.

(** The number a string of decimal digits denotes. *)
Definition number_of (s : string) : option Z :=
  option_map (fun d => Z.of_N (N.of_uint d)) (NilZero.uint_of_string s).

End Spec.

(** * Worlds and states used as concrete inputs *)

(** A machine without ffprobe and without the default artwork, on which
    mutagen recognises nothing. *)
Definition bare_world : world :=
  {| default_art_exists := false;
     pixmap_file_loads := fun _ => false;
     loadFromData := fun _ => false;
     MutagenFile := fun _ => Returns None;
     ID3 := fun _ => Raises;
     which_ffprobe := false;
     check_output := fun _ => Raises;
     float_of_output := fun _ => Raises |}.

(** What mutagen returns for an MP3 of three minutes that carries tags. *)
Definition mp3_of_three_minutes : audio :=
  {| audio_truthy := true;
     is_FLAC := false;
     info := Some (Returns 180%Q);
     vorbis_title := None;
     vorbis_artist := None;
     pictures := [] |}.

(** A machine on which mutagen reads a tagged MP3 of three minutes. *)
Definition tagged_world : world :=
  {| default_art_exists := true;
     pixmap_file_loads := fun _ => true;
     loadFromData := fun _ => true;
     MutagenFile := fun _ =>
       Returns (Some mp3_of_three_minutes);
     ID3 := fun _ =>
       Returns {| TIT2 := Some {| text := ["Night Drive"%string] |};
                  TPE1 := Some {| text := ["Ray"%string] |};
                  APIC := [];
                  other_frames := false |};
     which_ffprobe := true;
     check_output := fun _ => Returns "180.0"%string;
     float_of_output := fun _ => Returns 180%Q |}.

(** A machine on which mutagen opens an MP3 whose ID3 tag cannot be read. *)
Definition untagged_world : world :=
  {| default_art_exists := true;
     pixmap_file_loads := fun _ => true;
     loadFromData := fun _ => true;
     MutagenFile := fun _ =>
       Returns (Some mp3_of_three_minutes);
     ID3 := fun _ => Raises;
     which_ffprobe := true;
     check_output := fun _ => Returns "180.0"%string;
     float_of_output := fun _ => Returns 180%Q |}.

(** A machine on which mutagen itself raises on the file (a corrupt
    header, say). *)
Definition corrupt_world : world :=
  {| default_art_exists := true;
     pixmap_file_loads := fun _ => true;
     loadFromData := fun _ => true;
     MutagenFile := fun _ => Raises;
     ID3 := fun _ => Raises;
     which_ffprobe := true;
     check_output := fun _ => Returns "180.0"%string;
     float_of_output := fun _ => Returns 180%Q |}.

(** A track of three minutes playing since clock reading 1000. *)
Definition playing_state : AudioPlayer.t :=
  AudioPlayer.mk (Some "/music/song.mp3"%string)
    (Some {| pid := 4242; arg_ss := 0; arg_file := "/music/song.mp3" |})
    1000 0 180 "song.mp3" (QPixmap_fill 360 360) ShowsPause
    {| minimum := 0; maximum := 1000; value := 0; enabled := true |}
    "00:00 / 03:00" false [Spawn 0 "/music/song.mp3" (Some 4242)].

(** A machine on which mutagen recognises nothing and ffprobe reports four
    minutes and a half second. *)
Definition ffprobe_world : world :=
  {| default_art_exists := true;
     pixmap_file_loads := fun _ => true;
     loadFromData := fun _ => true;
     MutagenFile := fun _ => Returns None;
     ID3 := fun _ => Raises;
     which_ffprobe := true;
     check_output := fun _ => Returns "240.5"%string;
     float_of_output := fun _ => Returns (481 # 2)%Q |}.

(** What mutagen returns for a FLAC of two minutes with Vorbis comments and
    one picture. *)
Definition flac_of_two_minutes : audio :=
  {| audio_truthy := true;
     is_FLAC := true;
     info := Some (Returns 120%Q);
     vorbis_title := Some ["Low Tide"%string];
     vorbis_artist := Some ["Ray"%string];
     pictures := [ {| data := "cover-bytes" |} ] |}.

(** A machine on which that FLAC is read; it has no ID3 header, so
    [ID3(path)] raises. *)
Definition flac_world : world :=
  {| default_art_exists := true;
     pixmap_file_loads := fun _ => true;
     loadFromData := fun _ => true;
     MutagenFile := fun _ => Returns (Some flac_of_two_minutes);
     ID3 := fun _ => Raises;
     which_ffprobe := false;
     check_output := fun _ => Raises;
     float_of_output := fun _ => Raises |}.

(** A machine on which the ID3 tag has a title, an artist frame without
    text, and a decodable cover. *)
Definition broken_artist_world : world :=
  {| default_art_exists := true;
     pixmap_file_loads := fun _ => true;
     loadFromData := fun _ => true;
     MutagenFile := fun _ => Returns (Some mp3_of_three_minutes);
     ID3 := fun _ =>
       Returns {| TIT2 := Some {| text := ["Night Drive"%string] |};
                  TPE1 := Some {| text := [] |};
                  APIC := [ {| data := "cover-bytes" |} ];
                  other_frames := false |};
     which_ffprobe := false;
     check_output := fun _ => Raises;
     float_of_output := fun _ => Raises |}.

(** A machine on which the ID3 tag has a title, an artist and a cover that
    Qt decodes. *)
Definition cover_world : world :=
  {| default_art_exists := true;
     pixmap_file_loads := fun _ => true;
     loadFromData := fun _ => true;
     MutagenFile := fun _ => Returns (Some mp3_of_three_minutes);
     ID3 := fun _ =>
       Returns {| TIT2 := Some {| text := ["Night Drive"%string] |};
                  TPE1 := Some {| text := ["Ray"%string] |};
                  APIC := [ {| data := "cover-bytes" |} ];
                  other_frames := false |};
     which_ffprobe := false;
     check_output := fun _ => Raises;
     float_of_output := fun _ => Raises |}.

(** A machine without ffprobe on which mutagen reports a length that is
    exactly the double [0.0001]. *)
Definition threshold_world : world :=
  {| default_art_exists := true;
     pixmap_file_loads := fun _ => true;
     loadFromData := fun _ => true;
     MutagenFile := fun _ =>
       Returns (Some {| audio_truthy := true;
                        is_FLAC := false;
                        info := Some (Returns AudioPlayer.length_threshold);
                        vorbis_title := None;
                        vorbis_artist := None;
                        pictures := [] |});
     ID3 := fun _ => Raises;
     which_ffprobe := false;
     check_output := fun _ => Raises;
     float_of_output := fun _ => Raises |}.

(** The track of [playing_state], paused at half a minute. *)
Definition paused_state : AudioPlayer.t :=
  AudioPlayer.mk (Some "/music/song.mp3"%string) None
    1000 30 180 "song.mp3" (QPixmap_fill 360 360) ShowsPlay
    {| minimum := 0; maximum := 1000; value := 166; enabled := true |}
    "00:30 / 03:00" false
    [Terminate 4242; Spawn 0 "/music/song.mp3" (Some 4242)].

(** * Startup and consistency of the window *)

(** [main], up to [win.show()].  [argv] is [sys.argv]; [path_exists] is
    [os.path.exists]; [now] and [spawn] are what the clock and [Popen]
    answer if a file is loaded. *)
Definition main (W : world) (path_exists : string -> bool) (argv : list string)
    (now : Q) (spawn : option Z) : AudioPlayer.result :=
  let win := AudioPlayer.init W in
  match argv with
  | _ :: maybe_path :: _ =>
      match maybe_path with
      | EmptyString => AudioPlayer.Done win
      | _ =>
          if path_exists maybe_path
          then AudioPlayer.load_file W maybe_path now spawn win
          else AudioPlayer.Done win
      end
  | _ => AudioPlayer.Done win
  end.

(** The range [__init__] gives the slider, with the value inside it. *)
Definition slider_in_range (sl : slider_t) : Prop :=
  minimum sl = 0 /\ maximum sl = 1000 /\ 0 <= value sl <= 1000.

(** A process handle belongs to the current file, was started at an offset
    within the track, and comes with the pause face on the button. *)
Definition handle_consistent (s : AudioPlayer.t) : Prop :=
  match AudioPlayer.process s with
  | Some pr =>
      AudioPlayer.current_file s = Some (arg_file pr)
      /\ (0 <= arg_ss pr <= AudioPlayer.length s)%Q
      /\ AudioPlayer.play_pause_btn s = ShowsPause
  | None => True
  end.

(** What holds of the window between two events. *)
Definition consistent (W : world) (s : AudioPlayer.t) : Prop :=
  (0 <= AudioPlayer.pause_time s <= AudioPlayer.length s)%Q
  /\ slider_in_range (AudioPlayer.slider s)
  /\ (enabled (AudioPlayer.slider s) = true -> (0 < AudioPlayer.length s)%Q)
  /\ (AudioPlayer.current_file s = None ->
      (AudioPlayer.length s == 0)%Q /\ AudioPlayer.process s = None)
  /\ handle_consistent s
  /\ isNull W (AudioPlayer.album_art_label s) = false.

(** * Facts about the Python builtins *)

Example format_time_75 : format_time (151 # 2) = "01:15"%string.
Proof. reflexivity. Qed.

Example format_time_long : format_time 6001 = "100:01"%string.
Proof. reflexivity. Qed.

Example basename_ex : Py.basename "/home/ray/song.mp3" = "song.mp3"%string.
Proof. reflexivity. Qed.

Example int_truncates : Py.int (- (3 # 2)) = (-1)%Z /\ Py.int (7 # 2) = 3%Z.
Proof. split; reflexivity. Qed.

Example round_ties_to_even :
  Py.round (1 # 2) = 0%Z /\ Py.round (3 # 2) = 2%Z /\ Py.round (5 # 2) = 2%Z
  /\ Py.round (249 # 100) = 2%Z /\ Py.round (251 # 100) = 3%Z.
Proof. repeat split; reflexivity. Qed.

Example tagged_title :
  AudioPlayer.title_label
    (AudioPlayer.state_of
       (AudioPlayer.extract_metadata tagged_world "/music/song.mp3"
          (AudioPlayer.init tagged_world)))
  = "Night Drive - Ray"%string.
Proof. reflexivity. Qed.

Example length_at_threshold_asks_ffprobe :
  let s := AudioPlayer.state_of
             (AudioPlayer.load_file threshold_world "/music/blip.mp3" 1000
                (Some 4242%Z) (AudioPlayer.init threshold_world)) in
  AudioPlayer.length s = 0%Q /\ enabled (AudioPlayer.slider s) = false.
Proof. split; reflexivity. Qed.

Example tick_while_playing :
  let s := AudioPlayer.update_slider 1045 true true playing_state in
  value (AudioPlayer.slider s) = 250%Z
  /\ AudioPlayer.time_label s = "00:45 / 03:00"%string.
Proof. split; reflexivity. Qed.

Example tick_after_exit :
  let s := AudioPlayer.update_slider 1181 false false playing_state in
  AudioPlayer.process s = None
  /\ (AudioPlayer.pause_time s == 180)%Q
  /\ AudioPlayer.time_label s = "00:00 / 03:00"%string.
Proof. repeat split; reflexivity. Qed.

Section PyFacts.

Local Open Scope Q_scope.

Lemma Qltb_lt (x y : Q) : Py.Qltb x y = true <-> x < y.
Proof.
  unfold Py.Qltb. rewrite negb_true_iff.
  split.
  - intros H. apply Qnot_le_lt. intros Hle.
    apply Qle_bool_iff in Hle. congruence.
  - intros H. destruct (Qle_bool y x) eqn:E; [|reflexivity].
    apply Qle_bool_iff in E. exfalso. apply (Qlt_not_le _ _ H E).
Qed.

Lemma Qltb_ge (x y : Q) : Py.Qltb x y = false <-> y <= x.
Proof.
  unfold Py.Qltb. rewrite negb_false_iff. apply Qle_bool_iff.
Qed.

Lemma py_max_cases (a b : Q) :
  (a < b /\ Py.max a b = b) \/ (b <= a /\ Py.max a b = a).
Proof.
  unfold Py.max. destruct (Py.Qltb a b) eqn:E.
  - left. split; [now apply Qltb_lt | reflexivity].
  - right. split; [now apply Qltb_ge | reflexivity].
Qed.

Lemma py_min_cases (a b : Q) :
  (b < a /\ Py.min a b = b) \/ (a <= b /\ Py.min a b = a).
Proof.
  unfold Py.min. destruct (Py.Qltb b a) eqn:E.
  - left. split; [now apply Qltb_lt | reflexivity].
  - right. split; [now apply Qltb_ge | reflexivity].
Qed.

Lemma py_max_Qmax (a b : Q) : Py.max a b == Qmax a b.
Proof.
  destruct (py_max_cases a b) as [[H ->] | [H ->]].
  - symmetry. apply Q.max_r. now apply Qlt_le_weak.
  - symmetry. now apply Q.max_l.
Qed.

Lemma py_min_Qmin (a b : Q) : Py.min a b == Qmin a b.
Proof.
  destruct (py_min_cases a b) as [[H ->] | [H ->]].
  - symmetry. apply Q.min_r. now apply Qlt_le_weak.
  - symmetry. now apply Q.min_l.
Qed.

Lemma py_min_le_r (a b : Q) : Py.min a b <= b.
Proof. destruct (py_min_cases a b) as [[H ->] | [H ->]]; lra. Qed.

Lemma py_min_le_l (a b : Q) : Py.min a b <= a.
Proof. destruct (py_min_cases a b) as [[H ->] | [H ->]]; lra. Qed.

Lemma py_max_ge_l (a b : Q) : a <= Py.max a b.
Proof. destruct (py_max_cases a b) as [[H ->] | [H ->]]; lra. Qed.

(** The clamp [max(0.0, min(x, hi))] stays within [[0, hi]]. *)
Lemma clamp_bounds (x hi : Q) :
  0 <= hi -> 0 <= Py.max 0 (Py.min x hi) <= hi.
Proof.
  intros Hhi.
  destruct (py_max_cases 0 (Py.min x hi)) as [[H ->] | [H ->]].
  - split; [lra | apply py_min_le_r].
  - lra.
Qed.

(** A value already within [[0, hi]] is left as it is. *)
Lemma clamp_id (x hi : Q) :
  0 <= x <= hi -> Py.max 0 (Py.min x hi) == x.
Proof.
  intros [H0 H1].
  destruct (py_min_cases x hi) as [[H ->] | [H ->]];
    destruct (py_max_cases 0 x) as [[H' E] | [H' E]];
    try destruct (py_max_cases 0 hi) as [[H'' E'] | [H'' E']];
    try rewrite E; try rewrite E'; lra.
Qed.

(** [int] is the floor on non-negative values, the ceiling on the others. *)
Lemma py_int_floor (x : Q) : 0 <= x -> Py.int x = Qfloor x.
Proof.
  destruct x as [n d]. unfold Qle, Py.int, Qfloor. simpl.
  intros H. apply Z.quot_div_nonneg; lia.
Qed.

Lemma py_int_ceiling (x : Q) : x <= 0 -> Py.int x = Qceiling x.
Proof.
  destruct x as [n d]. unfold Qle, Py.int, Qceiling, Qfloor. simpl.
  intros H.
  assert (Hn : (n <= 0)%Z) by lia.
  rewrite <- (Z.opp_involutive n) at 1.
  rewrite Z.quot_opp_l by lia.
  rewrite Z.quot_div_nonneg by lia. reflexivity.
Qed.

Lemma py_int_mono (x y : Q) : x <= y -> (Py.int x <= Py.int y)%Z.
Proof.
  intros H.
  destruct (Qlt_le_dec x 0) as [Hx | Hx];
    destruct (Qlt_le_dec y 0) as [Hy | Hy].
  - rewrite !py_int_ceiling by lra. now apply Qceiling_resp_le.
  - rewrite py_int_ceiling by lra. rewrite py_int_floor by lra.
    apply Z.le_trans with 0%Z.
    + change 0%Z with (Qceiling 0). apply Qceiling_resp_le. lra.
    + change 0%Z with (Qfloor 0). now apply Qfloor_resp_le.
  - lra.
  - rewrite !py_int_floor by lra. now apply Qfloor_resp_le.
Qed.

Lemma py_int_Z (z : Z) : Py.int (inject_Z z) = z.
Proof. unfold Py.int. simpl. apply Z.quot_1_r. Qed.

End PyFacts.

(** * Rendering times *)

Section FormatTime.

Lemma str_nat_number (n : Z) : 0 <= n -> Spec.number_of (Py.str_nat n) = Some n.
Proof.
  intros Hn. unfold Spec.number_of, Py.str_nat.
  assert (Hnil : N.to_uint (Z.to_N n) <> Decimal.Nil).
  { destruct (Z.to_N n); simpl; [discriminate | apply DecimalPos.Unsigned.to_uint_nonnil]. }
  rewrite NilZero.usu by exact Hnil. simpl.
  rewrite DecimalN.Unsigned.of_to. now rewrite Z2N.id.
Qed.

Lemma str_nat_nonempty (n : Z) : 0 <= n -> Py.str_nat n <> EmptyString.
Proof.
  intros Hn E. pose proof (str_nat_number n Hn) as H.
  rewrite E in H. discriminate H.
Qed.

Lemma format_02_minutes (m : Z) :
  0 <= m -> Py.format_02 m = Spec.at_least_two_digits m.
Proof.
  intros Hm. unfold Py.format_02, Spec.at_least_two_digits, Py.zero_fill.
  destruct (Z.ltb_spec m 0) as [Hneg | _]; [lia |].
  pose proof (str_nat_nonempty m Hm) as Hne.
  destruct (Py.str_nat m) as [| c [| c' rest]]; [congruence | reflexivity | reflexivity].
Qed.

Lemma format_02_seconds_nat (n : nat) :
  (n < 60)%nat -> Py.format_02 (Z.of_nat n) = Spec.two_digits (Z.of_nat n).
Proof.
  intros Hn.
  do 60 (destruct n as [| n]; [reflexivity |]).
  lia.
Qed.

Lemma format_02_seconds (s : Z) :
  0 <= s < 60 -> Py.format_02 s = Spec.two_digits s.
Proof.
  intros Hs. rewrite <- (Z2Nat.id s) by lia.
  apply format_02_seconds_nat. lia.
Qed.

Lemma at_least_two_digits_length (m : Z) :
  0 <= m -> (2 <= String.length (Spec.at_least_two_digits m))%nat.
Proof.
  intros Hm. unfold Spec.at_least_two_digits. cbv zeta.
  destruct (Nat.ltb_spec (String.length (Py.str_nat m)) 2) as [Hlt | Hge].
  - pose proof (str_nat_nonempty m Hm) as Hne.
    destruct (Py.str_nat m) as [| c [| c' rest]];
      [congruence | simpl; lia | simpl in Hlt; lia].
  - exact Hge.
Qed.

Lemma at_least_two_digits_number (m : Z) :
  0 <= m -> Spec.number_of (Spec.at_least_two_digits m) = Some m.
Proof.
  intros Hm. pose proof (str_nat_number m Hm) as Hnum.
  pose proof (str_nat_nonempty m Hm) as Hne.
  unfold Spec.at_least_two_digits. cbv zeta.
  destruct (String.length (Py.str_nat m) <? 2)%nat; [| exact Hnum].
  unfold Spec.number_of in *.
  destruct (Py.str_nat m) as [| c rest] eqn:E; [congruence |].
  unfold NilZero.uint_of_string in *.
  change (NilEmpty.uint_of_string (String "0" (String c rest)))
    with (uint_of_char "0" (NilEmpty.uint_of_string (String c rest))).
  destruct (NilEmpty.uint_of_string (String c rest)) as [d |]; [| discriminate Hnum].
  simpl in *. exact Hnum.
Qed.

(** C8. For every non-negative time [t], [format_time t] is the decimal
    writing of [floor t / 60] on at least two digits, a colon, and
    [floor t mod 60] on exactly two digits; the seconds lie in [[0, 60)]. *)
Theorem format_time_minutes_seconds (t : Q) :
  (0 <= t)%Q ->
  let m := Qfloor t / 60 in
  let s := Qfloor t mod 60 in
  format_time t = Spec.format_time t
  /\ 0 <= s < 60
  /\ String.length (Spec.two_digits s) = 2%nat
  /\ (2 <= String.length (Spec.at_least_two_digits m))%nat
  /\ Spec.number_of (Spec.at_least_two_digits m) = Some m
  /\ Spec.number_of (Spec.two_digits s) = Some s.
Proof.
  intros Ht m s.
  assert (Hfloor : 0 <= Qfloor t).
  { change 0 with (Qfloor 0). now apply Qfloor_resp_le. }
  assert (Hm : 0 <= m) by (apply Z.div_pos; lia).
  assert (Hs : 0 <= s < 60) by (apply Z.mod_pos_bound; lia).
  repeat split; try lia.
  - unfold format_time, Spec.format_time, Py.divmod.
    rewrite (py_int_floor t Ht).
    fold m s. now rewrite (format_02_minutes m Hm), (format_02_seconds s Hs).
  - now apply at_least_two_digits_length.
  - now apply at_least_two_digits_number.
  - rewrite <- (format_02_seconds s Hs).
    rewrite (format_02_minutes s) by lia.
    apply at_least_two_digits_number. lia.
Qed.

Lemma format_time_minutes_seconds_witness :
  format_time (7283 # 2) = "60:41"%string
  /\ Spec.format_time (7283 # 2) = "60:41"%string.
Proof.
  assert (H0 : (0 <= 7283 # 2)%Q) by (unfold Qle; simpl; lia).
  pose proof (format_time_minutes_seconds (7283 # 2) H0) as [E _].
  split; [reflexivity | rewrite <- E; reflexivity].
Defined.

End FormatTime.

(** * The playback position *)

(** Case analysis on a state and on what decides the control flow. *)
Ltac by_cases s :=
  destruct s as [cf pr st pt len tl art btn sl lbl drag calls];
  destruct cf; destruct pr; cbn in *.

Section Position.

Import AudioPlayer.
Local Open Scope Q_scope.

Lemma kill_ffplay_fields (s : t) :
  current_file (kill_ffplay s) = current_file s
  /\ process (kill_ffplay s) = None
  /\ start_time (kill_ffplay s) = start_time s
  /\ pause_time (kill_ffplay s) = pause_time s
  /\ length (kill_ffplay s) = length s
  /\ slider (kill_ffplay s) = slider s
  /\ slider_dragging (kill_ffplay s) = slider_dragging s.
Proof. by_cases s; tauto. Qed.

Lemma start_ffplay_fields (x now : Q) (spawn : option Z) (s : t) :
  current_file (start_ffplay x now spawn s) = current_file s
  /\ pause_time (start_ffplay x now spawn s) = pause_time s
  /\ length (start_ffplay x now spawn s) = length s
  /\ slider (start_ffplay x now spawn s) = slider s
  /\ slider_dragging (start_ffplay x now spawn s) = slider_dragging s.
Proof. by_cases s; destruct spawn; cbn; tauto. Qed.

(** A successful spawn records the child, its [-ss] argument and the start
    time; a failed one leaves no handle. *)
Lemma start_ffplay_spawned (x now : Q) (child : Z) (file : string) (s : t) :
  current_file s = Some file ->
  process (start_ffplay x now (Some child) s)
    = Some {| pid := child; arg_ss := x; arg_file := file |}
  /\ start_time (start_ffplay x now (Some child) s) = now - x
  /\ play_pause_btn (start_ffplay x now (Some child) s) = ShowsPause.
Proof. intros Hf. by_cases s; inversion Hf; subst; tauto. Qed.

Lemma start_ffplay_failed (x now : Q) (file : string) (s : t) :
  current_file s = Some file ->
  process (start_ffplay x now None s) = None
  /\ start_time (start_ffplay x now None s) = start_time s
  /\ play_pause_btn (start_ffplay x now None s) = ShowsPlay.
Proof. intros Hf. by_cases s; inversion Hf; subst; tauto. Qed.

Lemma scaled_ratio_le (e len : Q) :
  0 < len -> e <= len -> e / len * 1000 <= 1000.
Proof.
  intros Hlen He.
  assert (H1 : e / len <= 1) by (apply Qle_shift_div_r; lra).
  lra.
Qed.

Lemma elapsed_le_length (now : Q) (alive : bool) (s : t) :
  elapsed now alive s <= length s.
Proof. unfold elapsed. apply py_min_le_r. Qed.

(** C10. With no track loaded [play_pause_toggle] leaves the whole state
    as it is; with no track loaded, or a track of length zero, [scrub] only
    clears the dragging flag: start time, pause offset, length and process
    handle are untouched. *)
Theorem controls_without_track (s : t) (now : Q) (alive : bool) (spawn : option Z) :
  (current_file s = None -> play_pause_toggle now alive spawn s = s)
  /\ (current_file s = None \/ length s == 0 ->
      scrub now spawn s = set_slider_dragging false s
      /\ pause_time (scrub now spawn s) = pause_time s
      /\ start_time (scrub now spawn s) = start_time s
      /\ process (scrub now spawn s) = process s).
Proof.
  split.
  - intros H. unfold play_pause_toggle. now rewrite H.
  - intros H.
    assert (E : scrub now spawn s = set_slider_dragging false s).
    { unfold scrub. destruct s as [cf pr st pt len tl art btn sl lbl drag calls].
      cbn in *. destruct cf as [f |]; [| reflexivity].
      destruct H as [H | H]; [discriminate H |].
      apply Qeq_bool_iff in H. now rewrite H. }
    rewrite E. repeat split.
Qed.

Lemma controls_without_track_witness :
  play_pause_toggle 5 true (Some 7%Z) (init bare_world) = init bare_world
  /\ scrub 5 (Some 7%Z) (slider_pressed (init bare_world)) = init bare_world.
Proof.
  split.
  - apply (proj1 (controls_without_track (init bare_world) 5 true (Some 7%Z))).
    reflexivity.
  - apply (proj2 (controls_without_track (slider_pressed (init bare_world)) 5 true
                    (Some 7%Z))).
    left. reflexivity.
Defined.

(** What [start_ffplay] asks of the operating system on a loaded track: the
    child on record, if any, is terminated first; then [Popen] is called
    with the offset and the current file. *)
Lemma start_ffplay_calls (x now : Q) (spawn : option Z) (file : string) (s : t) :
  current_file s = Some file ->
  os_calls (start_ffplay x now spawn s) = Spawn x file spawn :: calls_after_kill s.
Proof. intros Hf. by_cases s; inversion Hf; subst; destruct spawn; reflexivity. Qed.

(** C3. On a loaded track of positive length, with the slider at [v] in
    [[0, 1000]], [scrub] sets the pause offset to
    [max(0, min(v / 1000 * length, length))], a value within [[0, length]],
    and restarts playback there: the player on record, if any, is
    terminated, and then ffplay is started on the current file with that
    offset as its [-ss] argument.  When the spawn succeeds the new child is
    the handle, the start time is the clock minus the offset and the button
    shows pause; when [Popen] raises there is no handle, the start time is
    left as it was and the button shows play. *)
Theorem scrub_seeks_within_track (s : t) (now : Q) (spawn : option Z) (file : string) :
  current_file s = Some file ->
  0 < length s ->
  (0 <= value (slider s) <= 1000)%Z ->
  let target := inject_Z (value (slider s)) / 1000 * length s in
  let s' := scrub now spawn s in
  pause_time s' = Py.max 0 (Py.min target (length s))
  /\ pause_time s' == Qmax 0 (Qmin target (length s))
  /\ 0 <= target <= length s
  /\ 0 <= pause_time s' <= length s
  /\ length s' = length s
  /\ current_file s' = Some file
  /\ s' = start_ffplay (pause_time s') now spawn
            (set_pause_time (pause_time s') (set_slider_dragging false s))
  /\ os_calls s'
     = Spawn (pause_time s') file spawn
       :: match process s with
          | Some old => Terminate (pid old) :: os_calls s
          | None => os_calls s
          end
  /\ match spawn with
     | Some child =>
         process s' = Some {| pid := child; arg_ss := pause_time s'; arg_file := file |}
         /\ start_time s' = now - pause_time s'
         /\ play_pause_btn s' = ShowsPause
     | None =>
         process s' = None
         /\ start_time s' = start_time s
         /\ play_pause_btn s' = ShowsPlay
     end.
Proof.
  intros Hf Hlen Hv target s'.
  assert (Hne : Qeq_bool (length s) 0 = false).
  { destruct (Qeq_bool (length s) 0) eqn:E; [| reflexivity].
    apply Qeq_bool_iff in E. lra. }
  set (p := Py.max 0 (Py.min target (length s))).
  set (s0 := set_pause_time p (set_slider_dragging false s)).
  assert (Hs' : s' = start_ffplay p now spawn s0).
  { unfold s', scrub. cbn [current_file set_slider_dragging length slider].
    rewrite Hf, Hne. reflexivity. }
  assert (Hf0 : current_file s0 = Some file) by exact Hf.
  destruct (start_ffplay_fields p now spawn s0) as (Hcf & Hpt & Hl & _).
  assert (Hp : pause_time s' = p) by (rewrite Hs', Hpt; reflexivity).
  rewrite Hp.
  split; [reflexivity |].
  split.
  { unfold p. rewrite py_max_Qmax.
    apply Q.max_compat; [reflexivity | apply py_min_Qmin]. }
  split.
  { unfold target.
    assert (H0 : 0 <= inject_Z (value (slider s)) / 1000).
    { apply Qle_shift_div_l; [reflexivity |].
      rewrite Qmult_0_l. change 0 with (inject_Z 0). rewrite <- Zle_Qle. lia. }
    assert (H1 : inject_Z (value (slider s)) / 1000 <= 1).
    { apply Qle_shift_div_r; [reflexivity |].
      rewrite Qmult_1_l. change 1000 with (inject_Z 1000). rewrite <- Zle_Qle. lia. }
    nra. }
  split; [apply clamp_bounds; lra |].
  split; [rewrite Hs', Hl; reflexivity |].
  split; [rewrite Hs', Hcf; exact Hf0 |].
  split; [exact Hs' |].
  split; [rewrite Hs'; exact (start_ffplay_calls p now spawn file s0 Hf0) |].
  rewrite Hs'. destruct spawn as [child |].
  - exact (start_ffplay_spawned p now child file s0 Hf0).
  - exact (start_ffplay_failed p now file s0 Hf0).
Qed.

Lemma scrub_seeks_within_track_witness :
  let s' := scrub 2000 (Some 77%Z)
              (set_slider (setValue 250 (slider playing_state)) playing_state) in
  pause_time s' == 45
  /\ os_calls s'
     = [ Spawn (pause_time s') "/music/song.mp3" (Some 77%Z);
         Terminate 4242;
         Spawn 0 "/music/song.mp3" (Some 4242%Z) ]
  /\ process s'
     = Some {| pid := 77; arg_ss := pause_time s'; arg_file := "/music/song.mp3" |}.
Proof.
  pose proof (scrub_seeks_within_track
                (set_slider (setValue 250 (slider playing_state)) playing_state)
                2000 (Some 77%Z) "/music/song.mp3") as H.
  cbv zeta in H.
  destruct H as (H1 & _ & _ & _ & _ & _ & _ & H2 & H3 & _).
  - reflexivity.
  - reflexivity.
  - cbn. lia.
  - cbv zeta. split; [rewrite H1; reflexivity |]. split; [exact H2 | exact H3].
Defined.

(** C1. Pausing a playing track at position [p] within [[0, length]] stores
    [p] as the pause offset; resuming then starts the player at [p] and sets
    the start time so that the elapsed time read at the same clock value,
    [now - start_time], is [p] again (and so is the elapsed time
    [update_slider] would show). *)
Theorem pause_resume_preserves_position
    (s : t) (file : string) (pr : popen) (p pause_at resume_at : Q)
    (child : Z) (spawn0 : option Z) (alive1 : bool) :
  current_file s = Some file ->
  process s = Some pr ->
  0 <= p <= length s ->
  pause_at - start_time s == p ->
  let paused := play_pause_toggle pause_at true spawn0 s in
  let resumed := play_pause_toggle resume_at alive1 (Some child) paused in
  pause_time paused == p
  /\ process paused = None
  /\ process resumed
     = Some {| pid := child; arg_ss := pause_time paused; arg_file := file |}
  /\ start_time resumed = resume_at - pause_time paused
  /\ resume_at - start_time resumed == p
  /\ elapsed resume_at true resumed == p.
Proof.
  intros Hf Hpr Hp Hpos paused resumed.
  assert (Hpaused : paused
            = kill_ffplay
                (set_pause_time
                   (Py.max 0 (Py.min (pause_at - start_time s) (length s))) s)).
  { unfold paused, play_pause_toggle, is_playing. rewrite Hf, Hpr.
    destruct s; reflexivity. }
  assert (Hpt : pause_time paused == p).
  { rewrite Hpaused.
    destruct (kill_ffplay_fields
                (set_pause_time
                   (Py.max 0 (Py.min (pause_at - start_time s) (length s))) s))
      as (_ & _ & _ & E & _).
    rewrite E. cbn [pause_time set_pause_time].
    rewrite clamp_id; [exact Hpos | rewrite Hpos; exact Hp]. }
  assert (Hcur : current_file paused = Some file).
  { rewrite Hpaused. destruct s; cbn in *. destruct process0; exact Hf. }
  assert (Hnone : process paused = None).
  { rewrite Hpaused. apply kill_ffplay_fields. }
  assert (Hlen : length paused = length s).
  { rewrite Hpaused. destruct s; cbn. destruct process0; reflexivity. }
  assert (Hres : resumed = start_ffplay (pause_time paused) resume_at (Some child) paused).
  { unfold resumed, play_pause_toggle, is_playing. now rewrite Hcur, Hnone. }
  destruct (start_ffplay_spawned (pause_time paused) resume_at child file paused Hcur)
    as (Hproc & Hstart & _).
  destruct (start_ffplay_fields (pause_time paused) resume_at (Some child) paused)
    as (_ & _ & Hlen' & _).
  rewrite <- Hres in Hproc, Hstart, Hlen'.
  split; [exact Hpt |].
  split; [exact Hnone |].
  split; [exact Hproc |].
  split; [exact Hstart |].
  assert (Hback : resume_at - start_time resumed == p).
  { rewrite Hstart, <- Hpt. ring. }
  split; [exact Hback |].
  unfold elapsed, is_playing. rewrite Hproc.
  rewrite Hlen', Hlen.
  rewrite <- (clamp_id p (length s) Hp).
  destruct (py_max_cases 0 (resume_at - start_time resumed)) as [[H E] | [H E]];
    rewrite E.
  - destruct (py_min_cases (resume_at - start_time resumed) (length s)) as [[H' E'] | [H' E']];
      rewrite E'; rewrite (clamp_id p (length s) Hp); lra.
  - destruct (py_min_cases 0 (length s)) as [[H' E'] | [H' E']];
      rewrite E'; rewrite (clamp_id p (length s) Hp); lra.
Qed.

Lemma pause_resume_preserves_position_witness :
  let paused := play_pause_toggle 1042 true None playing_state in
  let resumed := play_pause_toggle 5000 false (Some 4243%Z) paused in
  pause_time paused == 42 /\ 5000 - start_time resumed == 42.
Proof.
  pose proof (pause_resume_preserves_position playing_state "/music/song.mp3"
                {| pid := 4242; arg_ss := 0; arg_file := "/music/song.mp3" |}
                42 1042 5000 4243%Z None false) as H.
  cbv zeta in H.
  destruct H as (H1 & _ & _ & _ & H2 & _).
  - reflexivity.
  - reflexivity.
  - cbn. split; unfold Qle; simpl; lia.
  - cbn. reflexivity.
  - split; [exact H1 | exact H2].
Defined.

Lemma slider_position_le (e : Q) (s : t) :
  e <= length s -> (slider_position e s <= 1000)%Z.
Proof.
  intros He. unfold slider_position.
  destruct (Py.Qltb 0 (length s)) eqn:E; [| lia].
  apply Qltb_lt in E.
  rewrite <- (py_int_Z 1000). apply py_int_mono.
  now apply scaled_ratio_le.
Qed.

(** What [update_slider] writes when it passes its guard. *)
Lemma update_slider_writes (now : Q) (alive alive' : bool) (s : t) (file : string) :
  current_file s = Some file ->
  ~ length s == 0 ->
  slider_dragging s = false ->
  let e := elapsed now alive s in
  slider (update_slider now alive alive' s) = setValue (slider_position e s) (slider s)
  /\ time_label (update_slider now alive alive' s)
     = (format_time e ++ " / " ++ format_time (length s))%string.
Proof.
  intros Hf Hlen Hdrag e.
  assert (Hne : Qeq_bool (length s) 0 = false).
  { destruct (Qeq_bool (length s) 0) eqn:E; [| reflexivity].
    apply Qeq_bool_iff in E. contradiction. }
  unfold update_slider. rewrite Hf, Hne, Hdrag. cbn [orb].
  fold e.
  destruct s as [cf pr st pt len tl art btn sl lbl drag calls].
  destruct pr; destruct alive'; cbn; split; reflexivity.
Qed.

(** C2. Whenever [update_slider] refreshes the display of a track of
    positive length, the elapsed time it computes is at most the length;
    the slider value it writes is at most 1000 and the seconds it renders
    with [format_time] are at most those of the length. *)
Theorem shown_elapsed_within_length
    (s : t) (now : Q) (alive alive' : bool) (file : string) :
  0 < length s ->
  current_file s = Some file ->
  slider_dragging s = false ->
  minimum (slider s) = 0%Z ->
  maximum (slider s) = 1000%Z ->
  let e := elapsed now alive s in
  let s' := update_slider now alive alive' s in
  e <= length s
  /\ (slider_position e s <= 1000)%Z
  /\ value (slider s') = Z.max 0 (Z.min 1000 (slider_position e s))
  /\ (value (slider s') <= 1000)%Z
  /\ time_label s' = (format_time e ++ " / " ++ format_time (length s))%string
  /\ (Py.int e <= Py.int (length s))%Z.
Proof.
  intros Hlen Hf Hdrag Hmin Hmax e s'.
  pose proof (elapsed_le_length now alive s) as He. fold e in He.
  pose proof (slider_position_le e s He) as Hpos.
  assert (Hnz : ~ length s == 0) by lra.
  destruct (update_slider_writes now alive alive' s file Hf Hnz Hdrag) as [Hsl Hlbl].
  fold e s' in Hsl, Hlbl.
  split; [exact He |].
  split; [exact Hpos |].
  assert (Hval : value (slider s') = Z.max 0 (Z.min 1000 (slider_position e s))).
  { rewrite Hsl. unfold setValue. cbn [value]. now rewrite Hmin, Hmax. }
  split; [exact Hval |].
  split; [rewrite Hval; lia |].
  split; [exact Hlbl |].
  now apply py_int_mono.
Qed.

Lemma shown_elapsed_within_length_witness :
  let s' := update_slider 1500 true true playing_state in
  value (slider s') = 1000%Z /\ time_label s' = "03:00 / 03:00"%string.
Proof.
  pose proof (shown_elapsed_within_length playing_state 1500 true true
                "/music/song.mp3") as H.
  cbv zeta in H.
  destruct H as (_ & _ & H1 & _ & H2 & _).
  - reflexivity.
  - reflexivity.
  - reflexivity.
  - reflexivity.
  - reflexivity.
  - split; [rewrite H1 | rewrite H2]; reflexivity.
Defined.

End Position.

(** * The pause offset never exceeds the length *)

Section Invariant.

Import AudioPlayer.
Local Open Scope Q_scope.

Variable W : world.

Lemma within_length_same (s s' : t) :
  pause_time s' = pause_time s -> length s' = length s ->
  within_length s -> within_length s'.
Proof. unfold within_length. intros -> ->. tauto. Qed.

Lemma within_length_init : within_length (init W).
Proof. unfold within_length. cbn. lra. Qed.

Lemma within_length_kill (s : t) : within_length s -> within_length (kill_ffplay s).
Proof. apply within_length_same; apply kill_ffplay_fields. Qed.

Lemma within_length_start (x now : Q) (spawn : option Z) (s : t) :
  within_length s -> within_length (start_ffplay x now spawn s).
Proof. apply within_length_same; apply start_ffplay_fields. Qed.

Lemma within_length_clamp (x : Q) (s : t) :
  0 <= length s ->
  within_length (set_pause_time (Py.max 0 (Py.min x (length s))) s).
Proof.
  intros H. unfold within_length. cbn [length pause_time set_pause_time].
  split; [exact H | now apply clamp_bounds].
Qed.

Lemma within_length_toggle (now : Q) (alive : bool) (spawn : option Z) (s : t) :
  within_length s -> within_length (play_pause_toggle now alive spawn s).
Proof.
  intros H. unfold play_pause_toggle.
  destruct (current_file s); [| exact H].
  destruct (is_playing alive s).
  - apply within_length_kill. cbn [pause_time length set_pause_time].
    apply (within_length_clamp (now - start_time s) s). apply H.
  - now apply within_length_start.
Qed.

Lemma within_length_scrub (now : Q) (spawn : option Z) (s : t) :
  within_length s -> within_length (scrub now spawn s).
Proof.
  intros H. unfold scrub.
  cbn [current_file length slider set_slider_dragging].
  destruct (current_file s); [| exact H].
  destruct (Qeq_bool (length s) 0); [exact H |].
  apply within_length_start.
  apply (within_length_clamp _ (set_slider_dragging false s)). apply H.
Qed.

Lemma within_length_update_slider (now : Q) (alive alive' : bool) (s : t) :
  within_length s -> within_length (update_slider now alive alive' s).
Proof.
  intros H. unfold update_slider.
  destruct (current_file s); [| exact H].
  destruct (Qeq_bool (length s) 0 || slider_dragging s); [exact H |].
  cbn [process set_time_label set_slider length].
  destruct (process s); [| exact H].
  destruct alive'; cbn [negb]; [exact H |].
  apply within_length_kill. unfold within_length.
  cbn [length pause_time set_pause_time set_time_label set_slider].
  destruct H as [H _]. split; [exact H | lra].
Qed.

Lemma within_length_preview (v : Z) (s : t) :
  within_length s -> within_length (update_preview_time v s).
Proof.
  intros H. unfold update_preview_time.
  destruct (Py.truthy (length s) && slider_dragging s); exact H.
Qed.

(** [stop_internal] resets the pause offset and keeps the length. *)
Lemma stop_internal_fields (s : t) :
  pause_time (stop_internal s) = 0
  /\ start_time (stop_internal s) = 0
  /\ length (stop_internal s) = length s
  /\ process (stop_internal s) = None.
Proof. by_cases s; repeat split. Qed.

(** [extract_metadata] writes the title and the artwork only. *)
Lemma extract_metadata_fields (path : string) (s : t) :
  let s' := state_of (extract_metadata W path s) in
  pause_time s' = pause_time s /\ length s' = length s
  /\ start_time s' = start_time s /\ process s' = process s
  /\ current_file s' = current_file s /\ slider s' = slider s.
Proof.
  unfold extract_metadata.
  destruct (MutagenFile W path); cbn; repeat split.
Qed.

Lemma within_length_load_file (path : string) (now : Q) (spawn : option Z) (s : t) :
  within_length s -> within_length (state_of (load_file W path now spawn s)).
Proof.
  intros [Hlen _]. unfold load_file.
  set (s5 := set_slider _ _).
  assert (H5 : pause_time s5 = 0 /\ length s5 = length s).
  { unfold s5. cbn [pause_time length set_slider set_pause_time set_start_time
                    set_current_file].
    split; [reflexivity | apply stop_internal_fields]. }
  pose proof (extract_metadata_fields path s5) as H6. cbv zeta in H6.
  destruct H6 as (Hp6 & Hl6 & _).
  assert (Hraised : forall s6, state_of (extract_metadata W path s5) = s6 ->
                               within_length s6).
  { intros s6 <-. unfold within_length. rewrite Hp6, Hl6.
    destruct H5 as [-> ->]. split; [exact Hlen | exact Hlen]. }
  destruct (extract_metadata W path s5) as [s6 | s6] eqn:E;
    [| now apply Hraised].
  cbn [state_of] in Hp6, Hl6.
  destruct (MutagenFile W path) as [au |]; [| now apply Hraised].
  destruct (if Qle_bool (mutagen_length au) length_threshold
            then get_duration_with_ffprobe W path
            else Returns (mutagen_length au)) as [length1 |];
    [| now apply Hraised].
  cbn [state_of].
  set (s7 := set_length _ s6).
  set (s8 := set_slider _ s7).
  destruct (start_ffplay_fields (pause_time s8) now spawn s8) as (_ & Hp & Hl & _).
  apply (within_length_same s7).
  - cbn [pause_time update_play_pause_icon]. rewrite Hp. reflexivity.
  - cbn [length update_play_pause_icon]. rewrite Hl. reflexivity.
  - unfold within_length, s7. cbn [length pause_time set_length].
    rewrite Hp6. destruct H5 as [-> _].
    destruct (Py.Qltb 0 length1) eqn:E1.
    + apply Qltb_lt in E1. lra.
    + lra.
Qed.

Lemma within_length_handle (e : event) (s : t) :
  within_length s -> within_length (state_of (handle W e s)).
Proof.
  intros H. destruct e as [path now spawn | now alive spawn | | v | now spawn
                          | x w now spawn | now alive alive' |]; cbn [handle state_of].
  - unfold open_file_dialog. destruct path; [exact H |].
    now apply within_length_load_file.
  - now apply within_length_toggle.
  - exact H.
  - apply within_length_preview. exact H.
  - now apply within_length_scrub.
  - unfold mousePressEvent.
    destruct (click_value (slider s) x w); [| exact H].
    cbn [state_of]. apply within_length_scrub. exact H.
  - now apply within_length_update_slider.
  - now apply within_length_kill.
Qed.

(** C4. In every reachable state the length is not negative and the pause
    offset is at most the length. *)
Theorem pause_offset_within_length (s : t) :
  reachable W s -> 0 <= length s /\ pause_time s <= length s.
Proof.
  induction 1 as [| s e _ IH].
  - apply within_length_init.
  - now apply within_length_handle.
Qed.

End Invariant.

(** A run: a file is opened, played for a while and paused. *)
Lemma pause_offset_within_length_witness :
  let s := AudioPlayer.state_of
             (AudioPlayer.handle tagged_world (AudioPlayer.Toggle 1030 true None)
                (AudioPlayer.state_of
                   (AudioPlayer.handle tagged_world
                      (AudioPlayer.Open "/music/song.mp3" 1000 (Some 4242))
                      (AudioPlayer.init tagged_world)))) in
  (0 <= AudioPlayer.length s /\ AudioPlayer.pause_time s <= AudioPlayer.length s)%Q.
Proof.
  cbv zeta.
  apply (pause_offset_within_length tagged_world).
  apply AudioPlayer.reachable_step.
  apply AudioPlayer.reachable_step.
  apply AudioPlayer.reachable_init.
Defined.

(** * Clicking on the seek slider *)

Section Click.

Local Open Scope Q_scope.

Lemma py_round_bounds (y : Q) (lo hi : Z) :
  inject_Z lo <= y <= inject_Z hi -> (lo <= Py.round y <= hi)%Z.
Proof.
  intros [Hlo Hhi].
  assert (Hf1 : (lo <= Qfloor y)%Z).
  { rewrite <- (Qfloor_Z lo). now apply Qfloor_resp_le. }
  assert (Hf2 : (Qfloor y <= hi)%Z).
  { rewrite <- (Qfloor_Z hi). now apply Qfloor_resp_le. }
  assert (Hup : 1 # 2 <= y - inject_Z (Qfloor y) -> (Qfloor y + 1 <= hi)%Z).
  { intros Hr. destruct (Z.eq_dec (Qfloor y) hi) as [E | NE]; [| lia].
    rewrite E in Hr. lra. }
  unfold Py.round. cbv zeta.
  destruct (Py.Qltb (y - inject_Z (Qfloor y)) (1 # 2)) eqn:E1; [lia |].
  apply Qltb_ge in E1. specialize (Hup E1).
  destruct (Py.Qltb (1 # 2) (y - inject_Z (Qfloor y))); [lia |].
  destruct (Z.even (Qfloor y)); lia.
Qed.

Lemma click_ratio_bounds (x : Q) (w : Z) (ratio : Q) :
  click_ratio x w = Returns ratio -> 0 <= ratio <= 1.
Proof.
  unfold click_ratio. destruct (w =? 0)%Z; [discriminate |].
  intros [= <-].
  pose proof (py_min_le_l 1 (x / inject_Z w)) as Hmin.
  destruct (py_max_cases 0 (Py.min 1 (x / inject_Z w))) as [[H ->] | [H ->]]; lra.
Qed.

(** The player-level handler sets the slider through [setValue] and then
    runs [scrub], which leaves the slider alone. *)
Lemma scrub_slider (now : Q) (spawn : option Z) (s : AudioPlayer.t) :
  AudioPlayer.slider (AudioPlayer.scrub now spawn s) = AudioPlayer.slider s.
Proof.
  unfold AudioPlayer.scrub.
  cbn [AudioPlayer.current_file AudioPlayer.set_slider_dragging AudioPlayer.length
       AudioPlayer.slider].
  destruct (AudioPlayer.current_file s); [| reflexivity].
  destruct (Qeq_bool (AudioPlayer.length s) 0); [reflexivity |].
  match goal with
  | |- context [AudioPlayer.start_ffplay ?a ?b ?c ?d] =>
      destruct (start_ffplay_fields a b c d) as (_ & _ & _ & Hs & _)
  end.
  rewrite Hs. reflexivity.
Qed.

(** C9. A left-button click at any abscissa [x] on a slider of width
    [w > 0] never raises: the ratio [x / w] is clamped to [[0, 1]] and the
    value set lies between the slider's minimum and maximum.  The handler
    raises exactly when the width is zero. *)
Theorem click_sets_value_in_range
    (s : AudioPlayer.t) (x : Q) (w : Z) (now : Q) (spawn : option Z) :
  (minimum (AudioPlayer.slider s) <= maximum (AudioPlayer.slider s))%Z ->
  (click_value (AudioPlayer.slider s) x w = Raises <-> w = 0%Z)
  /\ ((0 < w)%Z ->
      exists ratio val s',
        click_ratio x w = Returns ratio
        /\ ratio == Qmax 0 (Qmin 1 (x / inject_Z w))
        /\ 0 <= ratio <= 1
        /\ click_value (AudioPlayer.slider s) x w = Returns val
        /\ (minimum (AudioPlayer.slider s) <= val <= maximum (AudioPlayer.slider s))%Z
        /\ AudioPlayer.mousePressEvent x w now spawn s = AudioPlayer.Done s'
        /\ value (AudioPlayer.slider s') = val
        /\ minimum (AudioPlayer.slider s') = minimum (AudioPlayer.slider s)
        /\ maximum (AudioPlayer.slider s') = maximum (AudioPlayer.slider s)).
Proof.
  intros Hrange. split.
  - unfold click_value, click_ratio.
    destruct (Z.eqb_spec w 0) as [-> | Hw]; split; intros H;
      [reflexivity | reflexivity | discriminate H | contradiction].
  - intros Hw.
    assert (Hnz : (w =? 0)%Z = false) by (apply Z.eqb_neq; lia).
    set (ratio := Py.max 0 (Py.min 1 (x / inject_Z w))).
    assert (Hratio : click_ratio x w = Returns ratio).
    { unfold click_ratio. now rewrite Hnz. }
    pose proof (click_ratio_bounds x w ratio Hratio) as Hb.
    set (sl := AudioPlayer.slider s) in *.
    set (val := (Py.round (ratio * inject_Z (maximum sl - minimum sl)) + minimum sl)%Z).
    assert (Hval : click_value sl x w = Returns val).
    { unfold click_value. now rewrite Hratio. }
    assert (Hin : (minimum sl <= val <= maximum sl)%Z).
    { assert (Hspan : 0 <= inject_Z (maximum sl - minimum sl)).
      { change 0 with (inject_Z 0). rewrite <- Zle_Qle. lia. }
      assert (Hr : (0 <= Py.round (ratio * inject_Z (maximum sl - minimum sl))
                    <= maximum sl - minimum sl)%Z).
      { apply py_round_bounds. change (inject_Z 0) with 0. split; nra. }
      unfold val. lia. }
    exists ratio, val,
      (AudioPlayer.scrub now spawn
         (AudioPlayer.set_slider (setValue val sl) s)).
    split; [exact Hratio |].
    split.
    { unfold ratio. rewrite py_max_Qmax.
      apply Q.max_compat; [reflexivity | apply py_min_Qmin]. }
    split; [exact Hb |].
    split; [exact Hval |].
    split; [exact Hin |].
    split.
    { unfold AudioPlayer.mousePressEvent. fold sl. now rewrite Hval. }
    rewrite scrub_slider. cbn [AudioPlayer.slider AudioPlayer.set_slider].
    unfold setValue. cbn [value minimum maximum].
    repeat split. lia.
Qed.

Lemma click_sets_value_in_range_witness :
  exists s',
    AudioPlayer.mousePressEvent 150 600 2000 (Some 77%Z) playing_state
      = AudioPlayer.Done s'
    /\ value (AudioPlayer.slider s') = 250%Z.
Proof.
  assert (Hrange : (minimum (AudioPlayer.slider playing_state)
                    <= maximum (AudioPlayer.slider playing_state))%Z)
    by (cbn; lia).
  destruct (proj2 (click_sets_value_in_range playing_state 150 600 2000
                     (Some 77%Z) Hrange))
    as (ratio & val & s' & _ & _ & _ & Hval & _ & Hdone & Hv & _).
  - lia.
  - exists s'. split; [exact Hdone |].
    rewrite Hv. cbn in Hval. injection Hval as <-. reflexivity.
Defined.

End Click.

(** * Degrading to defaults *)

Section Defaults.

Import AudioPlayer.

Lemma get_duration_with_ffprobe_returns (W : world) (path : string) :
  exists x, get_duration_with_ffprobe W path = Returns x.
Proof.
  unfold get_duration_with_ffprobe.
  destruct (which_ffprobe W); cbn [negb]; [| now exists 0%Q].
  destruct (check_output W path) as [out |]; cbn [try_except]; [| now exists 0%Q].
  destruct out as [| c rest]; [now exists 0%Q |].
  destruct (float_of_output W (String c rest)) as [x |]; cbn [try_except];
    [now exists x | now exists 0%Q].
Qed.

Lemma extract_metadata_done (W : world) (path : string) (au : option audio) (s : t) :
  MutagenFile W path = Returns au ->
  extract_metadata W path s
  = Done (set_album_art_label
            (rounded_pixmap W (pix (read_tags W path au (default_locals W path)))
               album_size album_radius)
            (set_title_label
               (match artist (read_tags W path au (default_locals W path)) with
                | EmptyString => title (read_tags W path au (default_locals W path))
                | _ => (title (read_tags W path au (default_locals W path)) ++ " - "
                        ++ artist (read_tags W path au (default_locals W path)))%string
                end) s)).
Proof.
  intros H. unfold extract_metadata. rewrite H. reflexivity.
Qed.

(** C7. When ffprobe is absent, or running it raises, or it prints nothing,
    [get_duration_with_ffprobe] returns [0.0] instead of raising; and when
    [load_file] falls back on it (mutagen opened the file and reported no
    length above [0.0001]) the length is set to zero and the seek slider
    stays disabled. *)
Theorem failing_ffprobe_gives_zero (W : world) (path : string) :
  which_ffprobe W = false
  \/ check_output W path = Raises
  \/ check_output W path = Returns EmptyString ->
  get_duration_with_ffprobe W path = Returns 0%Q
  /\ forall (s : t) (now : Q) (spawn : option Z) (au : option audio),
      MutagenFile W path = Returns au ->
      (mutagen_length au <= length_threshold)%Q ->
      exists s',
        load_file W path now spawn s = Done s'
        /\ length s' = 0%Q
        /\ enabled (slider s') = false.
Proof.
  intros H.
  assert (Hdur : get_duration_with_ffprobe W path = Returns 0%Q).
  { unfold get_duration_with_ffprobe.
    destruct (which_ffprobe W); cbn [negb]; [| reflexivity].
    destruct H as [H | [H | H]]; [discriminate H | |]; rewrite H; reflexivity. }
  split; [exact Hdur |].
  intros s now spawn au Hau Hlen.
  unfold load_file.
  set (s5 := set_slider _ _).
  rewrite (extract_metadata_done W path au s5 Hau), Hau.
  apply Qle_bool_iff in Hlen. rewrite Hlen, Hdur.
  set (s6 := set_album_art_label _ _).
  change (Py.Qltb 0 0) with false. cbv iota.
  set (s7 := set_length 0 s6).
  change (Py.Qltb 0 (length s7)) with false.
  set (s8 := set_slider _ s7).
  destruct (start_ffplay_fields (pause_time s8) now spawn s8) as (_ & _ & Hl & Hs & _).
  eexists. split; [reflexivity |].
  cbn [length slider update_play_pause_icon]. rewrite Hl, Hs.
  split; reflexivity.
Qed.

Lemma failing_ffprobe_gives_zero_witness :
  get_duration_with_ffprobe bare_world "/music/song.mp3" = Returns 0%Q
  /\ exists s',
       load_file bare_world "/music/song.mp3" 1000 (Some 4242%Z) playing_state = Done s'
       /\ length s' = 0%Q /\ enabled (slider s') = false.
Proof.
  destruct (failing_ffprobe_gives_zero bare_world "/music/song.mp3") as [H1 H2].
  - left. reflexivity.
  - split; [exact H1 |].
    apply (H2 playing_state 1000%Q (Some 4242%Z) None).
    + reflexivity.
    + unfold Qle. simpl. lia.
Defined.

Lemma read_tags_unreadable (W : world) (path : string) (au : option audio) :
  tags_unreadable W path au ->
  read_tags W path au (default_locals W path) = default_locals W path.
Proof.
  unfold tags_unreadable, read_tags.
  destruct au as [a |]; [| reflexivity].
  intros [H | [HID3 H]].
  - now rewrite H.
  - destruct (audio_truthy a); [| reflexivity].
    rewrite HID3. unfold flac_handler.
    destruct H as [H | H].
    + now rewrite H.
    + destruct (is_FLAC a); [| reflexivity]. now rewrite H.
Qed.

(** C5. On a file for which [MutagenFile] itself raises, the call sits
    before the [try] and the exception leaves [extract_metadata]: neither
    the title nor the artwork is written, and [load_file] is left the same
    way. *)
Theorem extract_metadata_raises_on_corrupt_file :
  extract_metadata corrupt_world "/music/broken.mp3" (init corrupt_world)
  = Raised (init corrupt_world)
  /\ (exists s, load_file corrupt_world "/music/broken.mp3" 1000 (Some 4242%Z)
                  (init corrupt_world) = Raised s
                /\ title_label s = "No track loaded"%string).
Proof.
  split; [reflexivity |].
  eexists. split; reflexivity.
Qed.

(** C6, as the claim words it, fails: with an unreadable ID3 tag the title
    shown is the file name, not the empty string. *)
Lemma blank_title_counterexample :
  ~ (forall (W : world) (path : string) (s s' : t),
        ID3 W path = Raises ->
        extract_metadata W path s = Done s' ->
        title_label s' = EmptyString).
Proof.
  intros H.
  specialize (H untagged_world "/music/song.mp3"%string (init untagged_world) _
                eq_refl eq_refl).
  discriminate H.
Qed.

(** C6, amended. When [MutagenFile] returns and no tag can be read,
    [extract_metadata] does not raise; the locals keep their defaults, so
    the title shown is the base name of the path with no artist, and the
    artwork is the default artwork. *)
Theorem unreadable_tags_show_file_name
    (W : world) (path : string) (au : option audio) (s : t) :
  MutagenFile W path = Returns au ->
  tags_unreadable W path au ->
  read_tags W path au (default_locals W path)
  = {| title := Py.basename path; artist := "";
       pix := pix (default_locals W path) |}
  /\ exists s',
      extract_metadata W path s = Done s'
      /\ title_label s' = Py.basename path
      /\ album_art_label s' = load_default_pixmap W.
Proof.
  intros Hau Hun.
  pose proof (read_tags_unreadable W path au Hun) as Hloc.
  split; [exact Hloc |].
  rewrite (extract_metadata_done W path au s Hau), Hloc.
  eexists. split; [reflexivity |].
  split; reflexivity.
Qed.

Lemma unreadable_tags_show_file_name_witness :
  exists s',
    extract_metadata untagged_world "/music/song.mp3" (init untagged_world) = Done s'
    /\ title_label s' = "song.mp3"%string
    /\ album_art_label s' = load_default_pixmap untagged_world.
Proof.
  destruct (unreadable_tags_show_file_name untagged_world "/music/song.mp3"
              (Some mp3_of_three_minutes) (init untagged_world))
    as (_ & s' & H1 & H2 & H3).
  - reflexivity.
  - cbn. right. split; [reflexivity | left; reflexivity].
  - exists s'. split; [exact H1 |]. split; [rewrite H2; reflexivity | exact H3].
Defined.

End Defaults.

(** * Normal forms of the process operations *)

Section NormalForms.

Import AudioPlayer.
Local Open Scope Q_scope.

Lemma kill_ffplay_eq (s : t) :
  kill_ffplay s
  = mk (current_file s) None (start_time s) (pause_time s) (length s)
       (title_label s) (album_art_label s) ShowsPlay (slider s)
       (time_label s) (slider_dragging s) (calls_after_kill s).
Proof. by_cases s; reflexivity. Qed.

Lemma start_ffplay_eq (x now : Q) (spawn : option Z) (s : t) :
  start_ffplay x now spawn s
  = match current_file s, spawn with
    | Some file, Some child =>
        mk (Some file) (Some {| pid := child; arg_ss := x; arg_file := file |})
           (now - x) (pause_time s) (length s)
           (title_label s) (album_art_label s) ShowsPause (slider s)
           (time_label s) (slider_dragging s)
           (Spawn x file (Some child) :: calls_after_kill s)
    | Some file, None =>
        mk (Some file) None (start_time s) (pause_time s) (length s)
           (title_label s) (album_art_label s) ShowsPlay (slider s)
           (time_label s) (slider_dragging s)
           (Spawn x file None :: calls_after_kill s)
    | None, _ =>
        mk None None (start_time s) (pause_time s) (length s)
           (title_label s) (album_art_label s) ShowsPlay (slider s)
           (time_label s) (slider_dragging s) (calls_after_kill s)
    end.
Proof. by_cases s; destruct spawn; reflexivity. Qed.

Lemma stop_internal_eq (s : t) :
  stop_internal s
  = mk (current_file s) None 0 0 (length s)
       (title_label s) (album_art_label s) ShowsPlay (setValue 0 (slider s))
       ("00:00 / " ++ format_time (if Py.truthy (length s) then length s else 0))
       (slider_dragging s) (calls_after_kill s).
Proof. by_cases s; reflexivity. Qed.

(** The threshold of [load_file] lies just above one ten-thousandth. *)
Lemma length_threshold_bounds :
  1 # 10000 < length_threshold /\ length_threshold < 10001 # 100000000.
Proof. split; reflexivity. Qed.

Lemma rounded_pixmap_not_null (W : world) (src : pixmap) (size radius : Z) :
  isNull W (rounded_pixmap W src size radius) = false.
Proof. unfold rounded_pixmap. destruct (isNull W src); reflexivity. Qed.

(** The length [load_file] settles on once mutagen has answered. *)
Lemma load_file_eq (W : world) (path : string) (now : Q) (spawn : option Z) (s : t) :
  load_file W path now spawn s
  = match MutagenFile W path with
    | Raises =>
        Raised (mk (Some path) None 0 0 (length s)
                   (title_label s) (album_art_label s) ShowsPlay
                   (setEnabled false (setValue 0 (slider s)))
                   ("00:00 / "
                    ++ format_time (if Py.truthy (length s) then length s else 0))
                   (slider_dragging s) (calls_after_kill s))
    | Returns au =>
        match (if Qle_bool (mutagen_length au) length_threshold
               then get_duration_with_ffprobe W path
               else Returns (mutagen_length au)) with
        | Raises => Raised (state_of (extract_metadata W path
                       (mk (Some path) None 0 0 (length s)
                          (title_label s) (album_art_label s) ShowsPlay
                          (setEnabled false (setValue 0 (slider s)))
                          ("00:00 / "
                           ++ format_time (if Py.truthy (length s) then length s else 0))
                          (slider_dragging s) (calls_after_kill s))))
        | Returns length1 =>
            let len := if Py.Qltb 0 length1 then length1 else 0 in
            let loc := read_tags W path au (default_locals W path) in
            Done (mk (Some path)
                     (match spawn with
                      | Some child =>
                          Some {| pid := child; arg_ss := 0; arg_file := path |}
                      | None => None
                      end)
                     (match spawn with Some _ => now - 0 | None => 0 end)
                     0 len
                     (match artist loc with
                      | EmptyString => title loc
                      | _ => (title loc ++ " - " ++ artist loc)%string
                      end)
                     (rounded_pixmap W (pix loc) album_size album_radius)
                     ShowsPause
                     (setEnabled (Py.Qltb 0 len) (setValue 0 (slider s)))
                     ("00:00 / "
                      ++ format_time (if Py.truthy (length s) then length s else 0))
                     (slider_dragging s)
                     (Spawn 0 path spawn :: calls_after_kill s))
        end
    end.
Proof.
  unfold load_file. rewrite stop_internal_eq.
  cbn [set_current_file set_start_time set_pause_time set_slider
       current_file process start_time pause_time length title_label
       album_art_label play_pause_btn slider time_label slider_dragging os_calls].
  unfold extract_metadata.
  destruct (MutagenFile W path) as [au |]; [| reflexivity].
  destruct (if Qle_bool (mutagen_length au) length_threshold
            then get_duration_with_ffprobe W path
            else Returns (mutagen_length au)) as [length1 |]; [| reflexivity].
  rewrite start_ffplay_eq.
  destruct spawn; reflexivity.
Qed.

End NormalForms.

(** * Consistency of the reachable states *)

Section Consistency.

Import AudioPlayer.
Local Open Scope Q_scope.

Variable W : world.

Lemma setValue_in_range (v : Z) (sl : slider_t) :
  slider_in_range sl -> slider_in_range (setValue v sl).
Proof.
  unfold slider_in_range, setValue. cbn [minimum maximum value].
  intros (-> & -> & _). lia.
Qed.

Lemma consistent_init : consistent W (init W).
Proof.
  unfold consistent, slider_in_range, handle_consistent. cbn.
  repeat split; try lra; try lia; try reflexivity; try discriminate.
  apply rounded_pixmap_not_null.
Qed.

Lemma consistent_setValue (v : Z) (s : t) :
  consistent W s -> consistent W (set_slider (setValue v (slider s)) s).
Proof.
  intros (Hp & Hsl & Hen & Hcf & Hh & Hart).
  repeat split; try apply Hp; try apply (setValue_in_range v _ Hsl);
    try exact Hen; try apply (Hcf ltac:(assumption)); try exact Hart.
  exact Hh.
Qed.

Lemma consistent_set_pause (p : Q) (s : t) :
  0 <= p <= length s -> consistent W s -> consistent W (set_pause_time p s).
Proof.
  intros Hp' (Hp & Hsl & Hen & Hcf & Hh & Hart).
  split; [exact Hp' |].
  split; [exact Hsl |].
  split; [exact Hen |].
  split; [exact Hcf |].
  split; [exact Hh | exact Hart].
Qed.

Lemma consistent_kill (s : t) : consistent W s -> consistent W (kill_ffplay s).
Proof.
  intros (Hp & Hsl & Hen & Hcf & Hh & Hart). rewrite kill_ffplay_eq.
  split; [exact Hp |].
  split; [exact Hsl |].
  split; [exact Hen |].
  split; [intros Hn; split; [apply (Hcf Hn) | reflexivity] |].
  split; [exact I | exact Hart].
Qed.

Lemma consistent_start (x now : Q) (spawn : option Z) (s : t) :
  0 <= x <= length s -> consistent W s -> consistent W (start_ffplay x now spawn s).
Proof.
  intros Hx (Hp & Hsl & Hen & Hcf & Hh & Hart). rewrite start_ffplay_eq.
  destruct (current_file s) as [file |] eqn:Ef; [destruct spawn as [child |] |].
  - split; [exact Hp |].
    split; [exact Hsl |].
    split; [exact Hen |].
    split; [discriminate |].
    split; [| exact Hart].
    unfold handle_consistent. cbn. repeat split; apply Hx.
  - split; [exact Hp |].
    split; [exact Hsl |].
    split; [exact Hen |].
    split; [intros Hn; cbn in Hn; congruence |].
    split; [exact I | exact Hart].
  - split; [exact Hp |].
    split; [exact Hsl |].
    split; [exact Hen |].
    split; [intros _; split; [apply (Hcf eq_refl) | reflexivity] |].
    split; [exact I | exact Hart].
Qed.

Lemma consistent_toggle (now : Q) (alive : bool) (spawn : option Z) (s : t) :
  consistent W s -> consistent W (play_pause_toggle now alive spawn s).
Proof.
  intros H. unfold play_pause_toggle.
  destruct (current_file s); [| exact H].
  assert (Hlen : 0 <= length s) by (destruct H as (Hp & _); lra).
  destruct (is_playing alive s).
  - apply consistent_kill.
    exact (consistent_set_pause _ s (clamp_bounds (now - start_time s) _ Hlen) H).
  - apply consistent_start; [apply H | exact H].
Qed.

Lemma consistent_scrub (now : Q) (spawn : option Z) (s : t) :
  consistent W s -> consistent W (scrub now spawn s).
Proof.
  intros H. unfold scrub.
  cbn [current_file length slider set_slider_dragging].
  destruct (current_file s); [| exact H].
  destruct (Qeq_bool (length s) 0); [exact H |].
  assert (Hlen : 0 <= length s) by (destruct H as (Hp & _); lra).
  set (p := Py.max 0 _).
  assert (Hp : 0 <= p <= length s) by (apply clamp_bounds; exact Hlen).
  apply consistent_start; [exact Hp |].
  exact (consistent_set_pause p s Hp H).
Qed.

Lemma consistent_update_slider (now : Q) (alive alive' : bool) (s : t) :
  consistent W s -> consistent W (update_slider now alive alive' s).
Proof.
  intros H. unfold update_slider.
  destruct (current_file s); [| exact H].
  destruct (Qeq_bool (length s) 0 || slider_dragging s); [exact H |].
  cbn [process set_time_label set_slider length].
  pose proof (consistent_setValue (slider_position (elapsed now alive s) s) s H) as H1.
  destruct (process s); [| exact H1].
  destruct alive'; cbn [negb]; [exact H1 |].
  apply consistent_kill.
  refine (consistent_set_pause (length s) _ _ H1).
  cbn [length set_slider]. destruct H as (Hp & _). lra.
Qed.

Lemma consistent_preview (v : Z) (s : t) :
  consistent W s -> consistent W (update_preview_time v s).
Proof.
  intros H. unfold update_preview_time.
  destruct (Py.truthy (length s) && slider_dragging s); exact H.
Qed.

Lemma read_tags_pix_not_null (path : string) (au : option audio) :
  isNull W (rounded_pixmap W (pix (read_tags W path au (default_locals W path)))
              album_size album_radius) = false.
Proof. apply rounded_pixmap_not_null. Qed.

Lemma consistent_load_file (path : string) (now : Q) (spawn : option Z) (s : t) :
  consistent W s -> consistent W (state_of (load_file W path now spawn s)).
Proof.
  intros (Hp & Hsl & Hen & Hcf & Hh & Hart). rewrite load_file_eq.
  assert (Hlen : 0 <= length s) by lra.
  assert (Hsl0 : slider_in_range (setValue 0 (slider s)))
    by (apply setValue_in_range; exact Hsl).
  destruct (MutagenFile W path) as [au |].
  - destruct (get_duration_with_ffprobe_returns W path) as [d Hd].
    destruct (if Qle_bool (mutagen_length au) length_threshold
              then get_duration_with_ffprobe W path
              else Returns (mutagen_length au)) as [length1 |] eqn:E.
    + cbn [state_of]. cbv zeta.
      set (len := if Py.Qltb 0 length1 then length1 else 0).
      assert (Hlen' : 0 <= len).
      { unfold len. destruct (Py.Qltb 0 length1) eqn:E1; [| lra].
        apply Qltb_lt in E1. lra. }
      split; [cbn; lra |].
      split; [exact Hsl0 |].
      split; [cbn; intros E1; now apply Qltb_lt in E1 |].
      split; [discriminate |].
      split; [| apply rounded_pixmap_not_null].
      unfold handle_consistent. cbn.
      destruct spawn; [| exact I].
      cbn. repeat split; lra.
    + exfalso. destruct (Qle_bool (mutagen_length au) length_threshold);
        [rewrite Hd in E |]; discriminate E.
  - cbn [state_of].
    split; [cbn; lra |].
    split; [exact Hsl0 |].
    split; [discriminate |].
    split; [discriminate |].
    split; [exact I | exact Hart].
Qed.

Lemma consistent_handle (e : event) (s : t) :
  consistent W s -> consistent W (state_of (handle W e s)).
Proof.
  intros H. destruct e as [path now spawn | now alive spawn | | v | now spawn
                          | x w now spawn | now alive alive' |]; cbn [handle state_of].
  - unfold open_file_dialog. destruct path; [exact H |].
    now apply consistent_load_file.
  - now apply consistent_toggle.
  - exact H.
  - apply consistent_preview. now apply consistent_setValue.
  - now apply consistent_scrub.
  - unfold mousePressEvent.
    destruct (click_value (slider s) x w); [| exact H].
    cbn [state_of]. apply consistent_scrub. now apply consistent_setValue.
  - now apply consistent_update_slider.
  - now apply consistent_kill.
Qed.

Lemma reachable_consistent (s : t) : reachable W s -> consistent W s.
Proof.
  induction 1 as [| s e _ IH].
  - apply consistent_init.
  - now apply consistent_handle.
Qed.

End Consistency.

(** * Detecting the duration and loading a file *)

Section Loading.

Import AudioPlayer.
Local Open Scope Q_scope.

(** X1. [get_duration_with_ffprobe] never raises.  With ffprobe present it
    returns what [float] reads from a non-empty output, and zero when
    [float] rejects the output. *)
Theorem ffprobe_duration_never_raises (W : world) (path : string) :
  (exists d, get_duration_with_ffprobe W path = Returns d)
  /\ (forall out,
        which_ffprobe W = true ->
        check_output W path = Returns out ->
        out <> EmptyString ->
        get_duration_with_ffprobe W path
        = match float_of_output W out with
          | Returns d => Returns d
          | Raises => Returns 0
          end).
Proof.
  split; [apply get_duration_with_ffprobe_returns |].
  intros out Hw Hout Hne. unfold get_duration_with_ffprobe.
  rewrite Hw, Hout. cbn [negb].
  destruct out as [| c rest]; [congruence |].
  destruct (float_of_output W (String c rest)); reflexivity.
Qed.

Lemma ffprobe_duration_never_raises_witness :
  get_duration_with_ffprobe ffprobe_world "/music/song.ogg" = Returns (481 # 2).
Proof.
  rewrite (proj2 (ffprobe_duration_never_raises ffprobe_world "/music/song.ogg")
             "240.5"%string); [reflexivity | reflexivity | reflexivity | discriminate].
Defined.

(** X2. [load_file] raises exactly when [MutagenFile(path)] raises.  The
    state it then leaves behind already names the new path as current file:
    the previous process is gone, offsets are zero, the slider is disabled,
    while length, title and artwork are still those of the previous track. *)
Theorem load_file_raises_iff_mutagen_raises
    (W : world) (path : string) (now : Q) (spawn : option Z) (s : t) :
  ((exists s', load_file W path now spawn s = Raised s')
   <-> MutagenFile W path = Raises)
  /\ (forall s', load_file W path now spawn s = Raised s' ->
        current_file s' = Some path
        /\ process s' = None
        /\ start_time s' = 0 /\ pause_time s' = 0
        /\ enabled (slider s') = false
        /\ play_pause_btn s' = ShowsPlay
        /\ length s' = length s
        /\ title_label s' = title_label s
        /\ album_art_label s' = album_art_label s).
Proof.
  rewrite load_file_eq.
  destruct (MutagenFile W path) as [au |] eqn:E.
  - destruct (get_duration_with_ffprobe_returns W path) as [d Hd].
    assert (Hret : exists l, (if Qle_bool (mutagen_length au) length_threshold
                              then get_duration_with_ffprobe W path
                              else Returns (mutagen_length au)) = Returns l).
    { destruct (Qle_bool (mutagen_length au) length_threshold); eauto. }
    destruct Hret as [l ->].
    split.
    + split; [intros [s' H]; discriminate H | discriminate].
    + intros s' H. discriminate H.
  - split.
    + split; [reflexivity | intros _; eexists; reflexivity].
    + intros s' [= <-]. cbn. repeat split.
Qed.

Lemma load_file_raises_iff_mutagen_raises_witness :
  exists s',
    load_file corrupt_world "/music/broken.mp3" 1000 (Some 4243%Z) playing_state
    = Raised s'
    /\ current_file s' = Some "/music/broken.mp3"%string
    /\ process s' = None
    /\ length s' = 180.
Proof.
  destruct (load_file_raises_iff_mutagen_raises corrupt_world "/music/broken.mp3"
              1000 (Some 4243%Z) playing_state) as [Hiff Hstate].
  destruct (proj2 Hiff eq_refl) as [s' Hs'].
  exists s'. destruct (Hstate s' Hs') as (H1 & H2 & _ & _ & _ & _ & H3 & _).
  repeat split; [exact Hs' | exact H1 | exact H2 | rewrite H3; reflexivity].
Defined.

(** X3. When mutagen reports a length above the double [0.0001],
    [load_file] takes it and enables the slider, whatever ffprobe would
    say. *)
Theorem load_file_prefers_mutagen_length
    (W : world) (path : string) (now : Q) (spawn : option Z) (s : t)
    (au : option audio) :
  MutagenFile W path = Returns au ->
  length_threshold < mutagen_length au ->
  exists s',
    load_file W path now spawn s = Done s'
    /\ length s' = mutagen_length au
    /\ enabled (slider s') = true.
Proof.
  intros Hau Hlen. rewrite load_file_eq, Hau.
  assert (E : Qle_bool (mutagen_length au) length_threshold = false).
  { destruct (Qle_bool (mutagen_length au) length_threshold) eqn:E; [| reflexivity].
    apply Qle_bool_iff in E. lra. }
  rewrite E. cbv zeta.
  assert (Hpos : Py.Qltb 0 (mutagen_length au) = true).
  { apply Qltb_lt. destruct length_threshold_bounds as [Hth _]. lra. }
  rewrite Hpos.
  eexists. split; [reflexivity |]. cbn. rewrite Hpos. split; reflexivity.
Qed.

Lemma load_file_prefers_mutagen_length_witness :
  exists s',
    load_file tagged_world "/music/song.mp3" 1000 (Some 4242%Z)
      (init tagged_world) = Done s'
    /\ length s' = 180 /\ enabled (slider s') = true.
Proof.
  apply (load_file_prefers_mutagen_length tagged_world "/music/song.mp3" 1000
           (Some 4242%Z) (init tagged_world) (Some mp3_of_three_minutes)).
  - reflexivity.
  - reflexivity.
Defined.

(** X4. When mutagen gives no length above the double [0.0001] and ffprobe
    reports a positive duration, [load_file] takes ffprobe's and enables
    the slider; a duration that is not positive becomes zero, with the
    slider disabled. *)
Theorem load_file_falls_back_on_ffprobe
    (W : world) (path : string) (now : Q) (spawn : option Z) (s : t)
    (au : option audio) (d : Q) :
  MutagenFile W path = Returns au ->
  mutagen_length au <= length_threshold ->
  get_duration_with_ffprobe W path = Returns d ->
  exists s',
    load_file W path now spawn s = Done s'
    /\ (0 < d -> length s' = d /\ enabled (slider s') = true)
    /\ (d <= 0 -> length s' = 0 /\ enabled (slider s') = false).
Proof.
  intros Hau Hlen Hd. rewrite load_file_eq, Hau.
  apply Qle_bool_iff in Hlen. rewrite Hlen, Hd. cbv zeta.
  eexists. split; [reflexivity |].
  split.
  - intros Hpos. apply Qltb_lt in Hpos. cbn. rewrite Hpos. cbn.
    rewrite Hpos. split; reflexivity.
  - intros Hneg. apply Qltb_ge in Hneg. cbn. rewrite Hneg. cbn.
    split; reflexivity.
Qed.

Lemma load_file_falls_back_on_ffprobe_witness :
  exists s',
    load_file ffprobe_world "/music/song.ogg" 1000 (Some 4242%Z)
      (init ffprobe_world) = Done s'
    /\ length s' = 481 # 2 /\ enabled (slider s') = true.
Proof.
  destruct (load_file_falls_back_on_ffprobe ffprobe_world "/music/song.ogg" 1000
              (Some 4242%Z) (init ffprobe_world) None (481 # 2))
    as (s' & Hs' & Hpos & _).
  - reflexivity.
  - unfold Qle. simpl. lia.
  - reflexivity.
  - exists s'. split; [exact Hs' |]. apply Hpos. reflexivity.
Defined.

(** X5. When [load_file] returns, the new path is the current file, the
    pause offset is zero, the player was asked to start at offset zero (the
    start time is then the clock reading), the length is not negative, and
    the slider is enabled exactly when the length is positive.  The button
    shows the pause face even when the spawn failed. *)
Theorem load_file_starts_from_zero
    (W : world) (path : string) (now : Q) (spawn : option Z) (s s' : t) :
  load_file W path now spawn s = Done s' ->
  current_file s' = Some path
  /\ pause_time s' = 0
  /\ process s'
     = match spawn with
       | Some child => Some {| pid := child; arg_ss := 0; arg_file := path |}
       | None => None
       end
  /\ (spawn <> None -> start_time s' == now)
  /\ 0 <= length s'
  /\ (enabled (slider s') = true <-> 0 < length s')
  /\ play_pause_btn s' = ShowsPause
  /\ slider_dragging s' = slider_dragging s.
Proof.
  rewrite load_file_eq.
  destruct (MutagenFile W path) as [au |]; [| discriminate].
  destruct (if Qle_bool (mutagen_length au) length_threshold
            then get_duration_with_ffprobe W path
            else Returns (mutagen_length au)) as [length1 |]; [| discriminate].
  cbv zeta. intros [= <-].
  cbn [current_file pause_time process start_time length slider play_pause_btn
       slider_dragging enabled setEnabled].
  split; [reflexivity |].
  split; [reflexivity |].
  split; [reflexivity |].
  split; [destruct spawn; [intros _; ring | congruence] |].
  split.
  { destruct (Py.Qltb 0 length1) eqn:E; [apply Qltb_lt in E |]; lra. }
  split; [apply Qltb_lt |].
  split; reflexivity.
Qed.

Lemma load_file_starts_from_zero_witness :
  exists s',
    load_file tagged_world "/music/song.mp3" 1000 None paused_state = Done s'
    /\ pause_time s' = 0 /\ process s' = None /\ play_pause_btn s' = ShowsPause.
Proof.
  eexists. split; [reflexivity |].
  destruct (load_file_starts_from_zero tagged_world "/music/song.mp3" 1000 None
              paused_state _ eq_refl) as (_ & H1 & H2 & _ & _ & _ & H3 & _).
  split; [exact H1 |]. split; [exact H2 | exact H3].
Defined.

End Loading.

(** * What holds in every reachable state *)

Section ReachableStates.

Import AudioPlayer.
Local Open Scope Q_scope.

Variable W : world.

Lemma py_max_mono (a b : Q) : a <= b -> Py.max 0 a <= Py.max 0 b.
Proof.
  intros H.
  destruct (py_max_cases 0 a) as [[Ha ->] | [Ha ->]];
    destruct (py_max_cases 0 b) as [[Hb ->] | [Hb ->]]; lra.
Qed.

Lemma py_min_mono (a b hi : Q) : a <= b -> Py.min a hi <= Py.min b hi.
Proof.
  intros H.
  destruct (py_min_cases a hi) as [[Ha ->] | [Ha ->]];
    destruct (py_min_cases b hi) as [[Hb ->] | [Hb ->]]; lra.
Qed.

Lemma elapsed_nonneg (now : Q) (alive : bool) (s : t) :
  0 <= pause_time s -> 0 <= length s -> 0 <= elapsed now alive s.
Proof.
  intros Hp Hl. unfold elapsed.
  set (e := if is_playing alive s then _ else _).
  assert (He : 0 <= e).
  { unfold e. destruct (is_playing alive s); [apply py_max_ge_l | exact Hp]. }
  destruct (py_min_cases e (length s)) as [[H ->] | [H ->]]; lra.
Qed.

Lemma slider_position_mono (e1 e2 : Q) (s : t) :
  e1 <= e2 -> (slider_position e1 s <= slider_position e2 s)%Z.
Proof.
  intros H. unfold slider_position.
  destruct (Py.Qltb 0 (length s)) eqn:E; [| lia].
  apply Qltb_lt in E. apply py_int_mono.
  apply Qmult_le_compat_r; [| lra].
  unfold Qdiv. apply Qmult_le_compat_r; [exact H |].
  apply Qlt_le_weak. now apply Qinv_lt_0_compat.
Qed.

Lemma slider_position_nonneg (e : Q) (s : t) :
  0 <= e -> (0 <= slider_position e s)%Z.
Proof.
  intros He.
  assert (H0 : slider_position 0 s = 0%Z).
  { unfold slider_position. destruct (Py.Qltb 0 (length s)); [| reflexivity].
    unfold Py.int. destruct (length s) as [n d]. cbn. reflexivity. }
  rewrite <- H0. now apply slider_position_mono.
Qed.

(** X6. In every reachable state the slider keeps the range 0..1000 with
    its value inside, it is enabled only for a track of positive length,
    and the pause offset is not negative. *)
Theorem reachable_slider_in_range (s : t) :
  reachable W s ->
  minimum (slider s) = 0%Z /\ maximum (slider s) = 1000%Z
  /\ (0 <= value (slider s) <= 1000)%Z
  /\ (enabled (slider s) = true -> 0 < length s)
  /\ 0 <= pause_time s.
Proof.
  intros H. destruct (reachable_consistent W s H) as (Hp & (H1 & H2 & H3) & H4 & _).
  repeat split; try assumption; try apply H3. apply Hp.
Qed.

(** X7. In every reachable state a process handle belongs to the current
    file, was started at an offset within the track and comes with the
    pause face on the button; without a current file there is no process
    and the length is zero. *)
Theorem reachable_process_belongs_to_track (s : t) :
  reachable W s ->
  (forall pr, process s = Some pr ->
     current_file s = Some (arg_file pr)
     /\ 0 <= arg_ss pr <= length s
     /\ play_pause_btn s = ShowsPause)
  /\ (current_file s = None -> process s = None /\ length s == 0).
Proof.
  intros H. destruct (reachable_consistent W s H) as (_ & _ & _ & Hcf & Hh & _).
  split.
  - intros pr Hpr. unfold handle_consistent in Hh. rewrite Hpr in Hh. exact Hh.
  - intros Hn. destruct (Hcf Hn). split; assumption.
Qed.


(** X9. In a reachable state, when [update_slider] refreshes the display,
    the elapsed time lies within [[0, length]] and the value it passes to
    the slider already lies within 0..1000, so that the slider holds
    exactly that value. *)
Theorem reachable_tick_value_exact
    (s : t) (now : Q) (alive alive' : bool) (file : string) :
  reachable W s ->
  current_file s = Some file ->
  ~ length s == 0 ->
  slider_dragging s = false ->
  let e := elapsed now alive s in
  0 <= e <= length s
  /\ (0 <= slider_position e s <= 1000)%Z
  /\ value (slider (update_slider now alive alive' s)) = slider_position e s.
Proof.
  intros Hr Hf Hnz Hdrag e.
  destruct (reachable_consistent W s Hr) as (Hp & (Hmin & Hmax & _) & _).
  assert (He : 0 <= e <= length s).
  { split; [apply elapsed_nonneg; lra | apply elapsed_le_length]. }
  assert (Hpos : (0 <= slider_position e s <= 1000)%Z).
  { split; [apply slider_position_nonneg | apply slider_position_le]; apply He. }
  split; [exact He |].
  split; [exact Hpos |].
  destruct (update_slider_writes now alive alive' s file Hf Hnz Hdrag) as [Hsl _].
  fold e in Hsl. rewrite Hsl. unfold setValue. cbn [value].
  rewrite Hmin, Hmax. lia.
Qed.

End ReachableStates.

(** A file is opened and played for forty-five seconds. *)
Lemma reachable_after_open :
  AudioPlayer.reachable tagged_world
    (AudioPlayer.state_of
       (AudioPlayer.handle tagged_world
          (AudioPlayer.Open "/music/song.mp3" 1000 (Some 4242%Z))
          (AudioPlayer.init tagged_world))).
Proof.
  apply AudioPlayer.reachable_step. apply AudioPlayer.reachable_init.
Defined.

Lemma reachable_slider_in_range_witness :
  let s := AudioPlayer.state_of
             (AudioPlayer.handle tagged_world
                (AudioPlayer.Open "/music/song.mp3" 1000 (Some 4242%Z))
                (AudioPlayer.init tagged_world)) in
  maximum (AudioPlayer.slider s) = 1000%Z
  /\ (0 <= value (AudioPlayer.slider s) <= 1000)%Z.
Proof.
  cbv zeta.
  destruct (reachable_slider_in_range tagged_world _ reachable_after_open)
    as (_ & H1 & H2 & _).
  split; [exact H1 | exact H2].
Defined.

Lemma reachable_process_belongs_to_track_witness :
  let s := AudioPlayer.state_of
             (AudioPlayer.handle tagged_world
                (AudioPlayer.Open "/music/song.mp3" 1000 (Some 4242%Z))
                (AudioPlayer.init tagged_world)) in
  AudioPlayer.current_file s = Some "/music/song.mp3"%string
  /\ AudioPlayer.play_pause_btn s = ShowsPause.
Proof.
  cbv zeta.
  destruct (proj1 (reachable_process_belongs_to_track tagged_world _ reachable_after_open)
              {| pid := 4242; arg_ss := 0; arg_file := "/music/song.mp3" |} eq_refl)
    as (H1 & _ & H2).
  split; [exact H1 | exact H2].
Defined.


Lemma reachable_tick_value_exact_witness :
  let s := AudioPlayer.state_of
             (AudioPlayer.handle tagged_world
                (AudioPlayer.Open "/music/song.mp3" 1000 (Some 4242%Z))
                (AudioPlayer.init tagged_world)) in
  value (AudioPlayer.slider (AudioPlayer.update_slider 1045 true true s)) = 250%Z.
Proof.
  cbv zeta.
  destruct (reachable_tick_value_exact tagged_world _ 1045 true true
              "/music/song.mp3" reachable_after_open) as (_ & _ & H).
  - reflexivity.
  - intros H. discriminate H.
  - reflexivity.
  - rewrite H. reflexivity.
Defined.

(** * Playing, pausing and the end of the track *)

Section Playback.

Import AudioPlayer.
Local Open Scope Q_scope.

Lemma elapsed_mono (now1 now2 : Q) (alive : bool) (s : t) :
  now1 <= now2 -> elapsed now1 alive s <= elapsed now2 alive s.
Proof.
  intros H. unfold elapsed. apply py_min_mono.
  destruct (is_playing alive s); [| lra].
  apply py_max_mono. lra.
Qed.

(** X10. The position shown never moves backwards as the clock advances:
    for two clock readings in order, the elapsed time, the slider position
    and the seconds rendered by [update_slider] are in the same order. *)
Theorem shown_position_follows_clock (now1 now2 : Q) (alive : bool) (s : t) :
  now1 <= now2 ->
  elapsed now1 alive s <= elapsed now2 alive s
  /\ (slider_position (elapsed now1 alive s) s
      <= slider_position (elapsed now2 alive s) s)%Z
  /\ (Py.int (elapsed now1 alive s) <= Py.int (elapsed now2 alive s))%Z.
Proof.
  intros H. pose proof (elapsed_mono now1 now2 alive s H) as He.
  split; [exact He |].
  split; [now apply slider_position_mono | now apply py_int_mono].
Qed.

Lemma shown_position_follows_clock_witness :
  (slider_position (elapsed 1045 true playing_state) playing_state
   <= slider_position (elapsed 1090 true playing_state) playing_state)%Z.
Proof.
  apply (shown_position_follows_clock 1045 1090 true playing_state).
  unfold Qle. simpl. lia.
Defined.

(** [int] gives the same integer on equal rationals. *)
Lemma py_int_compat (x y : Q) : x == y -> Py.int x = Py.int y.
Proof.
  intros H. apply Z.le_antisymm; apply py_int_mono; rewrite H; apply Qle_refl.
Qed.

(** X11. When a tick finds that the player process has exited, the pause
    offset becomes the length and the handle is dropped.  From then on a
    tick shows the slider at its end and the full length as elapsed time,
    and pressing play starts the player at the end of the track, not at its
    beginning. *)
Theorem ended_track_stays_at_end
    (s : t) (file : string) (pr : popen)
    (now now' now'' : Q) (alive a1 a2 a3 : bool) (child : Z) :
  current_file s = Some file ->
  process s = Some pr ->
  0 < length s ->
  slider_dragging s = false ->
  let ended := update_slider now alive false s in
  pause_time ended = length s
  /\ process ended = None
  /\ play_pause_btn ended = ShowsPlay
  /\ elapsed now' a1 ended == length s
  /\ slider_position (elapsed now' a1 ended) ended = 1000%Z
  /\ time_label (update_slider now' a1 a2 ended)
     = (format_time (length s) ++ " / " ++ format_time (length s))%string
  /\ process (play_pause_toggle now'' a3 (Some child) ended)
     = Some {| pid := child; arg_ss := length s; arg_file := file |}.
Proof.
  intros Hf Hpr Hlen Hdrag ended.
  assert (Hnz : Qeq_bool (length s) 0 = false).
  { destruct (Qeq_bool (length s) 0) eqn:E; [| reflexivity].
    apply Qeq_bool_iff in E. lra. }
  assert (Hended : ended
            = mk (Some file) None (start_time s) (length s) (length s)
                 (title_label s) (album_art_label s) ShowsPlay
                 (setValue (slider_position (elapsed now alive s) s) (slider s))
                 (format_time (elapsed now alive s) ++ " / " ++ format_time (length s))
                 false (Terminate (pid pr) :: os_calls s)).
  { unfold ended, update_slider. rewrite Hf, Hnz, Hdrag. cbn [orb].
    cbn [process set_time_label set_slider]. rewrite Hpr. cbn [negb].
    rewrite kill_ffplay_eq. unfold calls_after_kill. cbn.
    now rewrite Hf, Hdrag, Hpr. }
  assert (Hel : elapsed now' a1 ended == length s).
  { rewrite Hended. unfold elapsed, is_playing. cbn [process pause_time length].
    destruct (py_min_cases (length s) (length s)) as [[H ->] | [H ->]]; reflexivity. }
  assert (Hpos : slider_position (elapsed now' a1 ended) ended = 1000%Z).
  { unfold slider_position.
    assert (Hl : length ended = length s) by (rewrite Hended; reflexivity).
    rewrite Hl. rewrite (proj2 (Qltb_lt 0 (length s)) Hlen).
    assert (E : elapsed now' a1 ended / length s * 1000 == 1000).
    { rewrite Hel. field. lra. }
    rewrite (py_int_compat _ _ E). reflexivity. }
  split; [rewrite Hended; reflexivity |].
  split; [rewrite Hended; reflexivity |].
  split; [rewrite Hended; reflexivity |].
  split; [exact Hel |].
  split; [exact Hpos |].
  split.
  - assert (Hfe : current_file ended = Some file) by (rewrite Hended; reflexivity).
    assert (Hle : ~ length ended == 0) by (rewrite Hended; cbn; lra).
    assert (Hde : slider_dragging ended = false) by (rewrite Hended; reflexivity).
    destruct (update_slider_writes now' a1 a2 ended file Hfe Hle Hde) as [_ Hlbl].
    rewrite Hlbl.
    assert (E : elapsed now' a1 ended = length s).
    { rewrite Hended. unfold elapsed, is_playing. cbn [process pause_time length].
      destruct (py_min_cases (length s) (length s)) as [[H ->] | [H ->]]; reflexivity. }
    rewrite E. rewrite Hended. reflexivity.
  - rewrite Hended. unfold play_pause_toggle, is_playing.
    cbn [current_file process pause_time]. rewrite start_ffplay_eq. reflexivity.
Qed.

Lemma ended_track_stays_at_end_witness :
  let ended := update_slider 1181 false false playing_state in
  time_label (update_slider 1182 false false ended) = "03:00 / 03:00"%string
  /\ process (play_pause_toggle 1190 false (Some 4243%Z) ended)
     = Some {| pid := 4243; arg_ss := 180; arg_file := "/music/song.mp3" |}.
Proof.
  pose proof (ended_track_stays_at_end playing_state "/music/song.mp3"
                {| pid := 4242; arg_ss := 0; arg_file := "/music/song.mp3" |}
                1181 1182 1190 false false false false 4243%Z) as H.
  cbv zeta in H.
  destruct H as (_ & _ & _ & _ & _ & H1 & H2).
  - reflexivity.
  - reflexivity.
  - reflexivity.
  - reflexivity.
  - split; [rewrite H1; reflexivity | rewrite H2; reflexivity].
Defined.

(** X12. Resuming a paused track whose spawn fails changes neither the
    pause offset nor the start time and leaves no handle, so that the next
    attempt starts the player at the same offset. *)
Theorem failed_resume_keeps_position
    (s : t) (file : string) (now now' : Q) (a a' : bool) (child : Z) :
  current_file s = Some file ->
  process s = None ->
  let failed := play_pause_toggle now a None s in
  pause_time failed = pause_time s
  /\ start_time failed = start_time s
  /\ process failed = None
  /\ play_pause_btn failed = ShowsPlay
  /\ process (play_pause_toggle now' a' (Some child) failed)
     = Some {| pid := child; arg_ss := pause_time s; arg_file := file |}
  /\ start_time (play_pause_toggle now' a' (Some child) failed)
     = now' - pause_time s.
Proof.
  intros Hf Hpr failed.
  assert (Hfailed : failed
            = mk (Some file) None (start_time s) (pause_time s) (length s)
                 (title_label s) (album_art_label s) ShowsPlay (slider s)
                 (time_label s) (slider_dragging s)
                 (Spawn (pause_time s) file None :: os_calls s)).
  { unfold failed, play_pause_toggle, is_playing. rewrite Hf, Hpr.
    rewrite start_ffplay_eq, Hf. unfold calls_after_kill. rewrite Hpr.
    reflexivity. }
  rewrite Hfailed. unfold play_pause_toggle, is_playing.
  cbn [current_file process pause_time start_time play_pause_btn].
  rewrite start_ffplay_eq. cbn. repeat split.
Qed.

Lemma failed_resume_keeps_position_witness :
  let failed := play_pause_toggle 2000 true None paused_state in
  pause_time failed = 30
  /\ process (play_pause_toggle 2005 true (Some 4243%Z) failed)
     = Some {| pid := 4243; arg_ss := 30; arg_file := "/music/song.mp3" |}.
Proof.
  pose proof (failed_resume_keeps_position paused_state "/music/song.mp3"
                2000 2005 true true 4243%Z) as H.
  cbv zeta in H.
  destruct H as (H1 & _ & _ & _ & H2 & _).
  - reflexivity.
  - reflexivity.
  - split; [rewrite H1; reflexivity | rewrite H2; reflexivity].
Defined.

(** X13. A tick never changes the current file, the length, the start
    time, the title, the artwork or the dragging flag; the pause offset
    changes only by becoming the length, and only together with the loss
    of the process handle. *)
Theorem tick_moves_offset_only_at_end (now : Q) (alive alive' : bool) (s : t) :
  let s' := update_slider now alive alive' s in
  current_file s' = current_file s
  /\ length s' = length s
  /\ start_time s' = start_time s
  /\ title_label s' = title_label s
  /\ album_art_label s' = album_art_label s
  /\ slider_dragging s' = slider_dragging s
  /\ (pause_time s' = pause_time s /\ (process s' = process s \/ process s = None)
      \/ pause_time s' = length s /\ process s' = None /\ process s <> None
         /\ alive' = false).
Proof.
  unfold update_slider.
  destruct s as [cf pr st pt len tl art btn sl lbl drag calls]. cbn.
  destruct cf as [f |]; [| cbn; intuition].
  destruct (Qeq_bool len 0 || drag); [cbn; intuition |].
  cbn. destruct pr as [p |]; [| cbn; intuition].
  destruct alive'; cbn; [intuition |].
  repeat split. right. repeat split. discriminate.
Qed.

End Playback.

(** * Where a click lands *)

Section ClickEdges.

Import AudioPlayer.
Local Open Scope Q_scope.

Lemma Qltb_compat (a b c d : Q) : a == c -> b == d -> Py.Qltb a b = Py.Qltb c d.
Proof. intros H1 H2. unfold Py.Qltb. now rewrite H1, H2. Qed.

Lemma py_round_compat (x y : Q) : x == y -> Py.round x = Py.round y.
Proof.
  intros H. unfold Py.round. cbv zeta.
  rewrite (Qfloor_comp x y H).
  assert (E : x - inject_Z (Qfloor y) == y - inject_Z (Qfloor y)) by (rewrite H; reflexivity).
  rewrite (Qltb_compat _ (1 # 2) _ (1 # 2) E (Qeq_refl _)).
  rewrite (Qltb_compat (1 # 2) _ (1 # 2) _ (Qeq_refl _) E).
  reflexivity.
Qed.

Lemma py_round_Z (y : Q) (z : Z) : y == inject_Z z -> Py.round y = z.
Proof.
  intros H. assert (Hb : (z <= Py.round y <= z)%Z); [| lia].
  apply py_round_bounds. rewrite H. split; apply Qle_refl.
Qed.

(** [round] stays within a half of its argument. *)
Lemma py_round_near (y : Q) :
  inject_Z (Py.round y) - (1 # 2) <= y <= inject_Z (Py.round y) + (1 # 2).
Proof.
  pose proof (Qfloor_le y) as Hlo. pose proof (Qlt_floor y) as Hhi.
  rewrite inject_Z_plus in Hhi. change (inject_Z 1) with 1 in Hhi.
  unfold Py.round. cbv zeta.
  destruct (Py.Qltb (y - inject_Z (Qfloor y)) (1 # 2)) eqn:E1.
  - apply Qltb_lt in E1. lra.
  - apply Qltb_ge in E1.
    assert (Hup : inject_Z (Qfloor y + 1) - (1 # 2) <= y
                  <= inject_Z (Qfloor y + 1) + (1 # 2)).
    { rewrite inject_Z_plus. change (inject_Z 1) with 1. lra. }
    destruct (Py.Qltb (1 # 2) (y - inject_Z (Qfloor y))) eqn:E2; [exact Hup |].
    apply Qltb_ge in E2.
    destruct (Z.even (Qfloor y)); [lra | exact Hup].
Qed.

Lemma py_round_mono (x y : Q) : x <= y -> (Py.round x <= Py.round y)%Z.
Proof.
  intros H. destruct (Z_le_gt_dec (Py.round x) (Py.round y)) as [Hle | Hgt];
    [exact Hle | exfalso].
  pose proof (py_round_near x) as Hx. pose proof (py_round_near y) as Hy.
  assert (Hz : inject_Z (Py.round y) + 1 <= inject_Z (Py.round x)).
  { change 1 with (inject_Z 1). rewrite <- inject_Z_plus, <- Zle_Qle. lia. }
  assert (Heq : x == y) by lra.
  pose proof (py_round_compat x y Heq). lia.
Qed.

Lemma py_min_mono_r (lo a b : Q) : a <= b -> Py.min lo a <= Py.min lo b.
Proof.
  intros H.
  destruct (py_min_cases lo a) as [[Ha ->] | [Ha ->]];
    destruct (py_min_cases lo b) as [[Hb ->] | [Hb ->]]; lra.
Qed.

Lemma ratio_le (x y : Q) (w : Z) :
  (0 < w)%Z -> x <= y -> x / inject_Z w <= y / inject_Z w.
Proof.
  intros Hw H. unfold Qdiv. apply Qmult_le_compat_r; [exact H |].
  apply Qlt_le_weak, Qinv_lt_0_compat.
  change 0 with (inject_Z 0). rewrite <- Zlt_Qlt. exact Hw.
Qed.

Lemma click_value_left (sl : slider_t) (x : Q) (w : Z) :
  (0 < w)%Z -> x <= 0 -> click_value sl x w = Returns (minimum sl).
Proof.
  intros Hw Hx. unfold click_value, click_ratio.
  assert (Hnz : (w =? 0)%Z = false) by (apply Z.eqb_neq; lia).
  rewrite Hnz.
  assert (Hr : x / inject_Z w <= 0).
  { pose proof (ratio_le x 0 w Hw Hx) as H. unfold Qdiv in H at 2.
    rewrite Qmult_0_l in H. exact H. }
  assert (E : Py.max 0 (Py.min 1 (x / inject_Z w)) = 0).
  { destruct (py_min_cases 1 (x / inject_Z w)) as [[H ->] | [H _]]; [| lra].
    destruct (py_max_cases 0 (x / inject_Z w)) as [[H' _] | [_ ->]]; [lra | reflexivity]. }
  rewrite E. rewrite (py_round_Z _ 0) by ring. reflexivity.
Qed.

Lemma click_value_right (sl : slider_t) (x : Q) (w : Z) :
  (0 < w)%Z -> inject_Z w <= x -> click_value sl x w = Returns (maximum sl).
Proof.
  intros Hw Hx. unfold click_value, click_ratio.
  assert (Hnz : (w =? 0)%Z = false) by (apply Z.eqb_neq; lia).
  rewrite Hnz.
  assert (Hwq : 0 < inject_Z w).
  { change 0 with (inject_Z 0). rewrite <- Zlt_Qlt. exact Hw. }
  assert (Hr : 1 <= x / inject_Z w).
  { apply Qle_shift_div_l; [exact Hwq | lra]. }
  assert (E : Py.max 0 (Py.min 1 (x / inject_Z w)) = 1).
  { destruct (py_min_cases 1 (x / inject_Z w)) as [[H _] | [_ ->]]; [lra |].
    destruct (py_max_cases 0 1) as [[_ ->] | [H' _]]; [reflexivity | lra]. }
  rewrite E. rewrite (py_round_Z _ (maximum sl - minimum sl)) by ring.
  f_equal. lia.
Qed.

Lemma scrub_pause_time (now : Q) (spawn : option Z) (s : t) (file : string) :
  current_file s = Some file ->
  0 < length s ->
  pause_time (scrub now spawn s)
  = Py.max 0 (Py.min (inject_Z (value (slider s)) / 1000 * length s) (length s)).
Proof.
  intros Hf Hlen.
  assert (Hnz : Qeq_bool (length s) 0 = false).
  { destruct (Qeq_bool (length s) 0) eqn:E; [| reflexivity].
    apply Qeq_bool_iff in E. lra. }
  unfold scrub. cbn [current_file length slider set_slider_dragging].
  rewrite Hf, Hnz. rewrite start_ffplay_eq.
  cbn [current_file set_pause_time set_slider_dragging pause_time].
  rewrite Hf. destruct spawn; reflexivity.
Qed.

(** X14. On a slider of positive width, a click at or left of the left
    edge sets the minimum and a click at or right of the right edge sets
    the maximum. *)
Theorem click_beyond_edges (sl : slider_t) (x : Q) (w : Z) :
  (0 < w)%Z ->
  (x <= 0 -> click_value sl x w = Returns (minimum sl))
  /\ (inject_Z w <= x -> click_value sl x w = Returns (maximum sl)).
Proof.
  intros Hw. split; intros Hx;
    [now apply click_value_left | now apply click_value_right].
Qed.

Lemma click_beyond_edges_witness :
  click_value (slider playing_state) (-5) 600 = Returns 0%Z
  /\ click_value (slider playing_state) 640 600 = Returns 1000%Z.
Proof.
  split.
  - apply (proj1 (click_beyond_edges (slider playing_state) (-5) 600 eq_refl)).
    unfold Qle. simpl. lia.
  - apply (proj2 (click_beyond_edges (slider playing_state) 640 600 eq_refl)).
    unfold Qle. simpl. lia.
Defined.

(** X15. On a slider of positive width whose minimum is at most its
    maximum, a click further to the right never sets a smaller value. *)
Theorem click_value_monotone (sl : slider_t) (x1 x2 : Q) (w : Z) :
  (0 < w)%Z ->
  (minimum sl <= maximum sl)%Z ->
  x1 <= x2 ->
  exists v1 v2,
    click_value sl x1 w = Returns v1
    /\ click_value sl x2 w = Returns v2
    /\ (v1 <= v2)%Z.
Proof.
  intros Hw Hrange Hx. unfold click_value, click_ratio.
  assert (Hnz : (w =? 0)%Z = false) by (apply Z.eqb_neq; lia).
  rewrite Hnz. do 2 eexists. split; [reflexivity |]. split; [reflexivity |].
  apply Z.add_le_mono_r. apply py_round_mono.
  apply Qmult_le_compat_r.
  - apply py_max_mono, py_min_mono_r. now apply ratio_le.
  - change 0 with (inject_Z 0). rewrite <- Zle_Qle. lia.
Qed.

Lemma click_value_monotone_witness :
  exists v1 v2,
    click_value (slider playing_state) 150 600 = Returns v1
    /\ click_value (slider playing_state) 450 600 = Returns v2
    /\ (v1 <= v2)%Z.
Proof.
  apply (click_value_monotone (slider playing_state) 150 450 600).
  - reflexivity.
  - cbn. lia.
  - unfold Qle. simpl. lia.
Defined.

(** X16. On a loaded track of positive length whose slider has the range
    0..1000, a click at or right of the right edge seeks to the end of the
    track and a click at or left of the left edge seeks to its start. *)
Theorem edge_click_seeks_to_ends
    (s : t) (file : string) (x : Q) (w : Z) (now : Q) (spawn : option Z) :
  current_file s = Some file ->
  0 < length s ->
  minimum (slider s) = 0%Z ->
  maximum (slider s) = 1000%Z ->
  (0 < w)%Z ->
  (inject_Z w <= x ->
     exists s', mousePressEvent x w now spawn s = Done s'
                /\ value (slider s') = 1000%Z
                /\ pause_time s' == length s)
  /\ (x <= 0 ->
     exists s', mousePressEvent x w now spawn s = Done s'
                /\ value (slider s') = 0%Z
                /\ pause_time s' == 0).
Proof.
  intros Hf Hlen Hmin Hmax Hw.
  split; intros Hx; unfold mousePressEvent.
  - rewrite (click_value_right (slider s) x w Hw Hx).
    eexists. split; [reflexivity |].
    set (s1 := set_slider _ s).
    rewrite scrub_slider.
    rewrite (scrub_pause_time now spawn s1 file Hf Hlen). unfold s1.
    cbn [slider set_slider length value setValue]. rewrite Hmin, Hmax.
    split; [reflexivity |].
    change (Z.max 0 (Z.min 1000 1000)) with 1000%Z.
    assert (Ex : inject_Z 1000 / 1000 * length s == length s)
      by (change (inject_Z 1000) with 1000; field).
    rewrite clamp_id; [exact Ex | rewrite Ex; lra].
  - rewrite (click_value_left (slider s) x w Hw Hx).
    eexists. split; [reflexivity |].
    set (s1 := set_slider _ s).
    rewrite scrub_slider.
    rewrite (scrub_pause_time now spawn s1 file Hf Hlen). unfold s1.
    cbn [slider set_slider length value setValue]. rewrite Hmin, Hmax.
    split; [reflexivity |].
    change (Z.max 0 (Z.min 1000 0)) with 0%Z.
    assert (Ex : inject_Z 0 / 1000 * length s == 0)
      by (change (inject_Z 0) with 0; field).
    rewrite clamp_id; [exact Ex | rewrite Ex; lra].
Qed.

Lemma edge_click_seeks_to_ends_witness :
  exists s',
    mousePressEvent 640 600 2000 (Some 4243%Z) playing_state = Done s'
    /\ value (slider s') = 1000%Z
    /\ pause_time s' == 180.
Proof.
  apply (proj1 (edge_click_seeks_to_ends playing_state "/music/song.mp3"
                  640 600 2000 (Some 4243%Z) eq_refl eq_refl eq_refl eq_refl eq_refl)).
  unfold Qle. simpl. lia.
Defined.

End ClickEdges.

(** * What the window shows for a file *)

Section Metadata.

Import AudioPlayer.

(** The label text for a title and an artist. *)
Lemma extract_metadata_shows (W : world) (path : string) (au : option audio)
    (s : t) (loc : locals) :
  MutagenFile W path = Returns au ->
  read_tags W path au (default_locals W path) = loc ->
  exists s',
    extract_metadata W path s = Done s'
    /\ title_label s'
       = match artist loc with
         | EmptyString => title loc
         | _ => (title loc ++ " - " ++ artist loc)%string
         end
    /\ album_art_label s' = rounded_pixmap W (pix loc) album_size album_radius.
Proof.
  intros Hau <-. rewrite (extract_metadata_done W path au s Hau).
  eexists. split; [reflexivity |]. split; reflexivity.
Qed.

(** The artwork for a list of embedded pictures: the first one when Qt
    decodes it, the default artwork otherwise. *)
Lemma first_picture_art (W : world) (path : string) (pics : list picture) :
  rounded_pixmap W (first_picture W pics (pix (default_locals W path)))
    album_size album_radius
  = match pics with
    | pic :: _ =>
        if loadFromData W (data pic)
        then Rounded (QPixmap_data (data pic)) album_size album_radius
        else load_default_pixmap W
    | [] => load_default_pixmap W
    end.
Proof.
  destruct pics as [| pic rest]; [reflexivity |].
  cbn [first_picture]. destruct (loadFromData W (data pic)); reflexivity.
Qed.

(** X17. When the ID3 tag is read, with [ti] the text of its title frame
    (the file name if there is none) and [ar] that of its artist frame
    (empty if there is none), the window shows [ti - ar], or [ti] alone when
    [ar] is empty; the artwork is the first attached picture when Qt decodes
    it and the default artwork otherwise. *)
Theorem id3_title_artist_and_cover_shown
    (W : world) (path : string) (au : audio) (tags : id3) (ti ar : string) (s : t) :
  MutagenFile W path = Returns (Some au) ->
  audio_truthy au = true ->
  ID3 W path = Returns tags ->
  id3_truthy tags = true ->
  frame_text (TIT2 tags) (Py.basename path) = Returns ti ->
  frame_text (TPE1 tags) EmptyString = Returns ar ->
  exists s',
    extract_metadata W path s = Done s'
    /\ title_label s'
       = match ar with
         | EmptyString => ti
         | _ => (ti ++ " - " ++ ar)%string
         end
    /\ album_art_label s'
       = match APIC tags with
         | pic :: _ =>
             if loadFromData W (data pic)
             then Rounded (QPixmap_data (data pic)) album_size album_radius
             else load_default_pixmap W
         | [] => load_default_pixmap W
         end.
Proof.
  intros Hau Htr Hid Htags Ht Ha.
  destruct (extract_metadata_shows W path (Some au) s
              {| title := ti; artist := ar;
                 pix := first_picture W (APIC tags) (pix (default_locals W path)) |}
              Hau) as (s' & Hs' & Hl & Hart).
  - unfold read_tags. rewrite Htr, Hid. unfold id3_body. rewrite Htags.
    cbn [title artist pix default_locals]. rewrite Ht. cbn [artist].
    rewrite Ha. reflexivity.
  - exists s'. split; [exact Hs' |]. split; [exact Hl |].
    rewrite Hart. cbn [pix]. apply first_picture_art.
Qed.

Lemma id3_title_artist_and_cover_shown_witness :
  exists s',
    extract_metadata cover_world "/music/song.mp3" (init cover_world) = Done s'
    /\ title_label s' = "Night Drive - Ray"%string
    /\ album_art_label s' = Rounded (QPixmap_data "cover-bytes") 360 20.
Proof.
  apply (id3_title_artist_and_cover_shown cover_world "/music/song.mp3"
           mp3_of_three_minutes
           {| TIT2 := Some {| text := ["Night Drive"%string] |};
              TPE1 := Some {| text := ["Ray"%string] |};
              APIC := [ {| data := "cover-bytes" |} ];
              other_frames := false |}
           "Night Drive" "Ray" (init cover_world)); reflexivity.
Defined.

(** X18. When reading the artist frame raises after the title was read (the
    frame has no text) and the file is not a FLAC, the title already read
    is shown without artist, and the attached picture is not looked at: the
    default artwork is shown. *)
Theorem broken_artist_frame_keeps_title_drops_cover
    (W : world) (path : string) (au : audio) (tags : id3) (ti : string) (s : t) :
  MutagenFile W path = Returns (Some au) ->
  audio_truthy au = true ->
  is_FLAC au = false ->
  ID3 W path = Returns tags ->
  id3_truthy tags = true ->
  frame_text (TIT2 tags) (Py.basename path) = Returns ti ->
  frame_text (TPE1 tags) EmptyString = Raises ->
  exists s',
    extract_metadata W path s = Done s'
    /\ title_label s' = ti
    /\ album_art_label s' = load_default_pixmap W.
Proof.
  intros Hau Htr Hflac Hid Htags Ht Ha.
  destruct (extract_metadata_shows W path (Some au) s
              {| title := ti; artist := EmptyString;
                 pix := pix (default_locals W path) |}
              Hau) as (s' & Hs' & Hl & Hart).
  - unfold read_tags. rewrite Htr, Hid. unfold id3_body. rewrite Htags.
    cbn [title artist pix default_locals]. rewrite Ht. cbn [artist].
    rewrite Ha. unfold flac_handler. rewrite Hflac. reflexivity.
  - exists s'. split; [exact Hs' |]. split; [exact Hl | exact Hart].
Qed.

Lemma broken_artist_frame_keeps_title_drops_cover_witness :
  exists s',
    extract_metadata broken_artist_world "/music/song.mp3"
      (init broken_artist_world) = Done s'
    /\ title_label s' = "Night Drive"%string
    /\ album_art_label s' = load_default_pixmap broken_artist_world.
Proof.
  apply (broken_artist_frame_keeps_title_drops_cover broken_artist_world
           "/music/song.mp3" mp3_of_three_minutes
           {| TIT2 := Some {| text := ["Night Drive"%string] |};
              TPE1 := Some {| text := [] |};
              APIC := [ {| data := "cover-bytes" |} ];
              other_frames := false |}
           "Night Drive" (init broken_artist_world)); reflexivity.
Defined.

(** X19. For a FLAC whose ID3 read raises, the Vorbis comments are used:
    with [ti] the first title (the file name if there is none) and [ar] the
    first artist (empty if there is none), the window shows [ti - ar], or
    [ti] alone when [ar] is empty, and the first picture of the file when Qt
    decodes it, the default artwork otherwise. *)
Theorem flac_comments_shown_when_id3_fails
    (W : world) (path : string) (au : audio) (ti ar : string) (s : t) :
  MutagenFile W path = Returns (Some au) ->
  audio_truthy au = true ->
  is_FLAC au = true ->
  ID3 W path = Raises ->
  vorbis_first (vorbis_title au) (Py.basename path) = Returns ti ->
  vorbis_first (vorbis_artist au) EmptyString = Returns ar ->
  exists s',
    extract_metadata W path s = Done s'
    /\ title_label s'
       = match ar with
         | EmptyString => ti
         | _ => (ti ++ " - " ++ ar)%string
         end
    /\ album_art_label s'
       = match pictures au with
         | pic :: _ =>
             if loadFromData W (data pic)
             then Rounded (QPixmap_data (data pic)) album_size album_radius
             else load_default_pixmap W
         | [] => load_default_pixmap W
         end.
Proof.
  intros Hau Htr Hflac Hid Ht Ha.
  destruct (extract_metadata_shows W path (Some au) s
              {| title := ti; artist := ar;
                 pix := first_picture W (pictures au) (pix (default_locals W path)) |}
              Hau) as (s' & Hs' & Hl & Hart).
  - unfold read_tags. rewrite Htr, Hid. unfold flac_handler. rewrite Hflac, Ht, Ha.
    reflexivity.
  - exists s'. split; [exact Hs' |]. split; [exact Hl |].
    rewrite Hart. cbn [pix]. apply first_picture_art.
Qed.

Lemma flac_comments_shown_when_id3_fails_witness :
  exists s',
    extract_metadata flac_world "/music/tide.flac" (init flac_world) = Done s'
    /\ title_label s' = "Low Tide - Ray"%string
    /\ album_art_label s' = Rounded (QPixmap_data "cover-bytes") 360 20.
Proof.
  apply (flac_comments_shown_when_id3_fails flac_world "/music/tide.flac"
           flac_of_two_minutes "Low Tide" "Ray" (init flac_world)); reflexivity.
Defined.

End Metadata.

(** * The time label, the preview and the start of the program *)

Section LabelAndStartup.

Import AudioPlayer.
Local Open Scope Q_scope.

Lemma string_length_append (a b : string) :
  String.length (a ++ b) = (String.length a + String.length b)%nat.
Proof. induction a as [| c a IH]; cbn; [reflexivity | now rewrite IH]. Qed.

Lemma format_02_width_nat (n : nat) :
  (n < 100)%nat -> String.length (Py.format_02 (Z.of_nat n)) = 2%nat.
Proof.
  intros Hn.
  do 100 (destruct n as [| n]; [reflexivity |]).
  lia.
Qed.

Lemma format_02_width (n : Z) :
  (0 <= n < 100)%Z -> String.length (Py.format_02 n) = 2%nat.
Proof.
  intros Hn. rewrite <- (Z2Nat.id n) by lia.
  apply format_02_width_nat. lia.
Qed.

(** X20. Below one hundred minutes a rendered time takes exactly five
    characters. *)
Theorem format_time_width (t : Q) :
  0 <= t -> t < 6000 -> String.length (format_time t) = 5%nat.
Proof.
  intros H0 H1. unfold format_time, Py.divmod.
  rewrite (py_int_floor t H0).
  assert (Hlo : (0 <= Qfloor t)%Z).
  { change 0%Z with (Qfloor 0). now apply Qfloor_resp_le. }
  assert (Hhi : (Qfloor t < 6000)%Z).
  { rewrite Zlt_Qlt. apply Qle_lt_trans with t; [apply Qfloor_le | exact H1]. }
  assert (Hm : (0 <= Qfloor t / 60 < 100)%Z).
  { split; [apply Z.div_pos; lia | apply Z.div_lt_upper_bound; lia]. }
  assert (Hs : (0 <= Qfloor t mod 60 < 100)%Z).
  { pose proof (Z.mod_pos_bound (Qfloor t) 60). lia. }
  rewrite !string_length_append.
  rewrite (format_02_width _ Hm), (format_02_width _ Hs). reflexivity.
Qed.

Lemma format_time_width_witness :
  String.length (format_time (11999 # 2)) = 5%nat.
Proof.
  apply format_time_width; unfold Qle, Qlt; simpl; lia.
Defined.

(** X21. [update_preview_time] changes nothing but the time label, and it
    changes the label only while the slider is dragged on a track whose
    length is not zero.  For a slider value within 0..1000 on a track of
    non-negative length, the position it renders is within the track. *)
Theorem preview_only_relabels (v : Z) (s : t) :
  let s' := update_preview_time v s in
  s' = set_time_label (time_label s') s
  /\ (slider_dragging s = false \/ length s == 0 -> s' = s)
  /\ ((0 <= v <= 1000)%Z -> 0 <= length s ->
      let pos := inject_Z v / 1000 * length s in
      0 <= pos <= length s
      /\ (Py.int pos <= Py.int (length s))%Z
      /\ (slider_dragging s = true -> ~ length s == 0 ->
          time_label s' = (format_time pos ++ " / " ++ format_time (length s))%string)).
Proof.
  cbv zeta. unfold update_preview_time, Py.truthy.
  split; [| split].
  - destruct s as [cf pr st pt len tl art btn sl lbl drag calls]. cbn.
    destruct (negb (Qeq_bool len 0) && drag); reflexivity.
  - intros [H | H].
    + rewrite H, andb_false_r. reflexivity.
    + apply Qeq_bool_iff in H. rewrite H. reflexivity.
  - intros Hv Hlen.
    assert (H0 : 0 <= inject_Z v / 1000).
    { apply Qle_shift_div_l; [reflexivity |].
      rewrite Qmult_0_l. change 0 with (inject_Z 0). rewrite <- Zle_Qle. lia. }
    assert (H1 : inject_Z v / 1000 <= 1).
    { apply Qle_shift_div_r; [reflexivity |].
      rewrite Qmult_1_l. change 1000 with (inject_Z 1000). rewrite <- Zle_Qle. lia. }
    assert (Hpos : 0 <= inject_Z v / 1000 * length s <= length s) by nra.
    split; [exact Hpos |].
    split; [apply py_int_mono; apply Hpos |].
    intros Hdrag Hnz.
    assert (E : Qeq_bool (length s) 0 = false).
    { destruct (Qeq_bool (length s) 0) eqn:E; [| reflexivity].
      apply Qeq_bool_iff in E. contradiction. }
    rewrite E, Hdrag. reflexivity.
Qed.

Lemma preview_only_relabels_witness :
  time_label (update_preview_time 500 (slider_pressed playing_state))
  = "01:30 / 03:00"%string.
Proof.
  destruct (preview_only_relabels 500 (slider_pressed playing_state))
    as (_ & _ & H).
  destruct H as (_ & _ & H).
  - lia.
  - unfold Qle. simpl. lia.
  - rewrite H; [reflexivity | reflexivity | intros E; discriminate E].
Defined.

(** X22. Whatever the command line, [main] leaves the window in a
    reachable state; it raises only when a second, non-empty argument names
    an existing file on which [MutagenFile] raises, and without such an
    argument the window is the initial one. *)
Theorem main_starts_in_reachable_state
    (W : world) (path_exists : string -> bool) (argv : list string)
    (now : Q) (spawn : option Z) :
  reachable W (state_of (main W path_exists argv now spawn))
  /\ ((exists s', main W path_exists argv now spawn = Raised s') ->
      exists prog path rest,
        argv = prog :: path :: rest
        /\ path <> EmptyString
        /\ path_exists path = true
        /\ MutagenFile W path = Raises)
  /\ ((forall prog path rest,
         argv = prog :: path :: rest ->
         path = EmptyString \/ path_exists path = false) ->
      main W path_exists argv now spawn = Done (init W)).
Proof.
  unfold main.
  destruct argv as [| prog [| path rest]].
  - split; [apply reachable_init |].
    split; [intros [s' H]; discriminate H | reflexivity].
  - split; [apply reachable_init |].
    split; [intros [s' H]; discriminate H | reflexivity].
  - destruct path as [| c p].
    + split; [apply reachable_init |].
      split; [intros [s' H]; discriminate H | reflexivity].
    + destruct (path_exists (String c p)) eqn:E.
      * split.
        { exact (reachable_step W (init W) (Open (String c p) now spawn)
                   (reachable_init W)). }
        split.
        { intros Hr.
          exists prog, (String c p), rest.
          split; [reflexivity |]. split; [discriminate |]. split; [exact E |].
          destruct Hr as [s' Hs']. rewrite load_file_eq in Hs'.
          destruct (MutagenFile W (String c p)) as [au |]; [| reflexivity].
          destruct (get_duration_with_ffprobe_returns W (String c p)) as [d Hd].
          destruct (Qle_bool (mutagen_length au) length_threshold);
            [rewrite Hd in Hs' |]; discriminate Hs'. }
        intros H. destruct (H prog (String c p) rest eq_refl) as [H' | H'];
          [discriminate H' | congruence].
      * split; [apply reachable_init |].
        split; [intros [s' H]; discriminate H | reflexivity].
Qed.

Lemma main_starts_in_reachable_state_witness :
  main tagged_world (fun _ => false) ["app.py"%string; "/music/gone.mp3"%string]
    1000 (Some 4242%Z)
  = Done (init tagged_world).
Proof.
  apply (proj2 (proj2 (main_starts_in_reachable_state tagged_world (fun _ => false)
                         ["app.py"%string; "/music/gone.mp3"%string]
                         1000 (Some 4242%Z)))).
  intros prog path rest H. right. reflexivity.
Defined.

End LabelAndStartup.
